(** * ServiceNow knowledge-base exporter: a shallow embedding of
    [extract-articles.py] and the properties of its export pipeline.

    Python [str] values are sequences of Unicode code points; they are
    modelled as lists of code points ([N]).  Values decoded from JSON are
    modelled by the inductive type [value]; functions that Python applies
    to a value of the wrong type raise the exception Python raises.
    [print], the HTTP calls and the file-system calls are modelled by
    explicit state passing. *)

From Stdlib Require Import List NArith ZArith Bool Lia String Ascii Arith.
From Stdlib Require Import DecimalString.
Import ListNotations.

Local Open Scope N_scope.
Local Open Scope list_scope.

(** ** Python strings *)

Module PyStr.

Definition char := N.
Definition str := list char.

(** ASCII literals of the source, as code points. *)
Definition lit (s : string) : str :=
  List.map N_of_ascii (list_ascii_of_string s).

Definition ch_tab : char := 9.
Definition ch_nl : char := 10.
Definition ch_space : char := 32.
Definition ch_dquote : char := 34.
Definition ch_hash : char := 35.
Definition ch_dash : char := 45.
Definition ch_underscore : char := 95.

Definition str_eqb (a b : str) : bool :=
  if list_eq_dec N.eq_dec a b then true else false.

(** [str.isspace] on one code point (CPython's [_PyUnicode_IsWhitespace]). *)
Definition isspace (c : char) : bool :=
  ((9 <=? c) && (c <=? 13)) || ((28 <=? c) && (c <=? 32))
  || (c =? 133) || (c =? 160) || (c =? 5760)
  || ((8192 <=? c) && (c <=? 8202))
  || (c =? 8232) || (c =? 8233) || (c =? 8239) || (c =? 8287)
  || (c =? 12288).

Definition mem (c : char) (cs : str) : bool :=
  existsb (N.eqb c) cs.

(** [s.replace(c, d)] for one-character [c] and [d]. *)
Definition replace_char (c d : char) (s : str) : str :=
  List.map (fun x => if x =? c then d else x) s.

(** [s.lstrip(...)]: drop the longest prefix whose characters satisfy [p]. *)
Fixpoint lstrip_by (p : char -> bool) (s : str) : str :=
  match s with
  | [] => []
  | c :: s' => if p c then lstrip_by p s' else s
  end.

(** [s.rstrip(...)]: drop the longest suffix whose characters satisfy [p]. *)
Fixpoint rstrip_by (p : char -> bool) (s : str) : str :=
  match s with
  | [] => []
  | c :: s' =>
      match rstrip_by p s' with
      | [] => if p c then [] else [c]
      | r => c :: r
      end
  end.

(** [s.strip()] *)
Definition strip (s : str) : str :=
  rstrip_by isspace (lstrip_by isspace s).

(** [s.rstrip(cs)] *)
Definition rstrip_chars (cs : str) (s : str) : str :=
  rstrip_by (fun c => mem c cs) s.

(** [s.split()]: the maximal runs of non-whitespace characters.  [cur] is
    the current run, reversed. *)
Fixpoint split_ws_aux (cur : str) (s : str) : list str :=
  match s with
  | [] => match cur with [] => [] | _ => [rev cur] end
  | c :: s' =>
      if isspace c
      then match cur with
           | [] => split_ws_aux [] s'
           | _ => rev cur :: split_ws_aux [] s'
           end
      else split_ws_aux (c :: cur) s'
  end.

Definition split_ws (s : str) : list str := split_ws_aux [] s.

(** [s.split(sep)] for a one-character separator: never empty. *)
Fixpoint split_on_aux (sep : char) (cur : str) (s : str) : list str :=
  match s with
  | [] => [rev cur]
  | c :: s' =>
      if c =? sep then rev cur :: split_on_aux sep [] s'
      else split_on_aux sep (c :: cur) s'
  end.

Definition split_on (sep : char) (s : str) : list str :=
  split_on_aux sep [] s.

(** [sep.join(parts)] *)
Fixpoint join (sep : str) (parts : list str) : str :=
  match parts with
  | [] => []
  | [p] => p
  | p :: rest => p ++ sep ++ join sep rest
  end.

(** [s.startswith(pre)] *)
Fixpoint startswith (s pre : str) : bool :=
  match pre, s with
  | [], _ => true
  | _ :: _, [] => false
  | p :: pre', c :: s' => (c =? p) && startswith s' pre'
  end.

(** [' '.join(s.split())] *)
Definition normalize_ws (s : str) : str :=
  join [ch_space] (split_ws s).

End PyStr.

Import PyStr.

(** ** The filename sanitizer (lines 78-111) *)

(** [invalid_chars]: the nine characters less-than, greater-than, colon,
    double quote, slash, backslash, vertical bar, question mark and
    asterisk, in the order of the source literal. *)
Definition invalid_chars : str :=
  [60; 62; 58; 34; 47; 92; 124; 63; 42].

Definition max_length : nat := 100.

Definition sanitize_filename (filename : str) : str :=
  match filename with
  | [] => lit "unnamed"
  | _ =>
      let filename :=
        fold_left (fun f c => replace_char c ch_underscore f)
                  invalid_chars filename in
      let filename := normalize_ws filename in
      let filename := strip filename in
      let filename := replace_char ch_nl ch_space filename in
      let filename := replace_char ch_tab ch_space filename in
      let filename := replace_char ch_space ch_dash filename in
      let filename := rstrip_chars (lit "_-") filename in
      if (max_length <? List.length filename)%nat
      then rstrip_chars (lit "_-") (strip (firstn max_length filename))
      else filename
  end.


(** ** Values decoded from JSON (lines 57, 147, 251, ...)

    [response.json()] yields [None], booleans, integers, strings, lists
    and dictionaries.  Floating-point numbers are left out of the model.
    A dictionary is an association list in insertion order; lookup takes
    the first binding of a key. *)

#[warnings="-register-all"]
Inductive value : Type :=
| VNone
| VBool (b : bool)
| VInt (z : Z)
| VStr (s : str)
| VList (l : list value)
| VDict (d : list (str * value)).

(** The exceptions of class [Exception] that matter to the handlers of
    the program; [OtherException] stands for an exception of any other
    class ([ValueError], [UnicodeEncodeError], [RecursionError], ...). *)
Inductive exn : Type :=
| KeyError (key : str)
| AttributeError
| TypeError
| OSError
| OtherException (class_name : str).

(** The result of running a piece of Python: a value, a raised exception
    of class [Exception], or [sys.exit(code)].  [SystemExit] derives from
    [BaseException] only, so no [except Exception] or [except KeyError]
    clause stops it. *)
Inductive outcome (A : Type) : Type :=
| Ret (a : A)
| Raise (e : exn)
| Exit (code : Z).

Arguments Ret {A} a.
Arguments Raise {A} e.
Arguments Exit {A} code.

(** Sequencing of code without effects: the first exception or exit
    ends it. *)
Definition obind {A B : Type} (o : outcome A) (k : A -> outcome B)
  : outcome B :=
  match o with
  | Ret a => k a
  | Raise e => Raise e
  | Exit code => Exit code
  end.

Notation "'let?' x ':=' o 'in' k" := (obind o (fun x => k))
  (at level 10, x name, o at level 100, k at level 200).

Module PyVal.

(** Truth value of an object ([if v], [not v], [a or b]). *)
Definition truthy (v : value) : bool :=
  match v with
  | VNone => false
  | VBool b => b
  | VInt z => negb (z =? 0)%Z
  | VStr s => match s with [] => false | _ => true end
  | VList l => match l with [] => false | _ => true end
  | VDict d => match d with [] => false | _ => true end
  end.

Fixpoint assoc {A : Type} (d : list (str * A)) (k : str) : option A :=
  match d with
  | [] => None
  | (k', v) :: d' => if str_eqb k' k then Some v else assoc d' k
  end.

(** [d[k] = v] on an insertion-ordered dictionary: a key that is present
    keeps its position. *)
Fixpoint assoc_set {A : Type} (d : list (str * A)) (k : str) (v : A)
  : list (str * A) :=
  match d with
  | [] => [(k, v)]
  | (k', v') :: d' =>
      if str_eqb k' k then (k', v) :: d' else (k', v') :: assoc_set d' k v
  end.

(** [d.get(key, default)] on a dictionary. *)
Definition dict_get (d : list (str * value)) (key : str) (default : value)
  : value :=
  match assoc d key with
  | Some x => x
  | None => default
  end.

(** [v.get(key, default)]: only a dictionary has the method. *)
Definition py_get (v : value) (key : str) (default : value) : outcome value :=
  match v with
  | VDict d => Ret (dict_get d key default)
  | _ => Raise AttributeError
  end.

(** [v[key]] for a string key. *)
Definition py_getitem (v : value) (key : str) : outcome value :=
  match v with
  | VDict d =>
      match assoc d key with
      | Some x => Ret x
      | None => Raise (KeyError key)
      end
  | _ => Raise TypeError
  end.

(** [v.strip()] *)
Definition py_strip (v : value) : outcome str :=
  match v with
  | VStr s => Ret (strip s)
  | _ => Raise AttributeError
  end.

(** The items a [for] loop or a comprehension draws from [v]. *)
Definition py_iter (v : value) : outcome (list value) :=
  match v with
  | VList l => Ret l
  | VDict d => Ret (List.map (fun kv => VStr (fst kv)) d)
  | VStr s => Ret (List.map (fun c => VStr [c]) s)
  | _ => Raise TypeError
  end.

Definition str_of_Z (z : Z) : str :=
  lit (NilZero.string_of_int (Z.to_int z)).

Section Repr.

(** [repr] of a string (quoting and escaping) is Python's own and is not
    part of the program: it is a parameter. *)
Variable repr_str : str -> str.

(** [repr(v)] *)
Fixpoint py_repr (v : value) : str :=
  match v with
  | VNone => lit "None"
  | VBool true => lit "True"
  | VBool false => lit "False"
  | VInt z => str_of_Z z
  | VStr s => repr_str s
  | VList l => lit "[" ++ join (lit ", ") (List.map py_repr l) ++ lit "]"
  | VDict d =>
      lit "{"
      ++ join (lit ", ")
           (List.map (fun kv => repr_str (fst kv) ++ lit ": " ++ py_repr (snd kv)) d)
      ++ lit "}"
  end.

(** [str(v)], also what an f-string field [{v}] formats to. *)
Definition py_str (v : value) : str :=
  match v with
  | VStr s => s
  | _ => py_repr v
  end.

End Repr.

End PyVal.

Import PyVal.

(** ** Effects: HTTP requests, the file system and standard output

    A run is modelled by the trace of the effects it performed, in
    order.  What the environment answers (the remote instance, the file
    system) is an oracle that may depend on everything done so far. *)

(** The five URLs the program requests (lines 27-30, 146, 280, 298). *)
Inductive request : Type :=
| GetKnowledgeBases
| GetCategories
| GetArticles (knowledge_base : value)
| GetArticle (article_id : value)
| GetUser (user_sys_id : value).

(** What [requests.request], [raise_for_status] and [response.json] do
    (lines 55-57): the decoded body, or an exception.  The exceptions are
    named by the [except] clause of lines 58-76 that receives them, in
    the order of the clauses: [HTTPError] is an exception of that class
    that is neither a [ConnectionError] nor a [Timeout], [RequestException]
    one of that class that is none of the three before, [JSONDecodeError]
    a [json.JSONDecodeError] that is not a [RequestException].  Which
    class a given fault has is the library's affair: a body that cannot
    be decoded is a [JSONDecodeError] with requests before 2.27 and a
    [RequestException] since.  [Uncaught e] is an exception that none of
    the five clauses names. *)
Inductive http_result : Type :=
| ConnectionError
| Timeout
| HTTPError (status_code : Z)
| RequestException
| JSONDecodeError
| Uncaught (e : exn)
| Json (v : value).

(** The lines [print] writes; a constructor per [print] call of the
    source, carrying the values interpolated in the text. *)
Inductive message : Type :=
| MsgCouldNotConnect                       (* line 59 *)
| MsgTimedOut (r : request)                (* line 62 *)
| MsgHTTPFailed (status_code : Z)          (* line 65 *)
| MsgAuthenticationFailed                  (* line 67 *)
| MsgAccessForbidden                       (* line 69 *)
| MsgUnexpectedRequestError                (* line 72 *)
| MsgInvalidJSON (r : request)             (* line 75 *)
| MsgStarting                              (* line 246 *)
| MsgFetching                              (* line 249 *)
| MsgNoKnowledgeBases                      (* line 253 *)
| MsgFiltering (selected : list str)       (* line 258 *)
| MsgNoMatchingKnowledgeBases              (* line 261 *)
| MsgProcessing (kb_title : str)           (* line 275 *)
| MsgUnderline (width : nat)               (* line 276 *)
| MsgNoArticles (kb_title : str)           (* line 286 *)
| MsgArticle (location article_title : str)  (* line 324 *)
| MsgSkippingArticle (e : exn)             (* line 328 *)
| MsgKnowledgeBaseError (e : exn)          (* line 332 *)
| MsgCompleted                             (* line 335 *)
| MsgSavedTo (folder : str)                (* line 336 *)
| MsgUnexpectedError (e : exn).            (* line 339 *)

(** [EOpen]: [open(path, 'w')] has created the file or emptied it;
    [EWrite]: the content has been written and the file closed.  A file
    that was opened and not written holds an unspecified part of the
    content, possibly nothing. *)
Inductive event : Type :=
| EPrint (m : message)
| ERequest (r : request)
| EMakedirs (path : str)
| EOpen (path : str)
| EWrite (path : str) (content : str).

Definition trace := list event.

Record world : Type := {
  (** the answer to a request, given what happened before it *)
  http : trace -> request -> http_result;
  (** [os.path.exists] *)
  path_exists : trace -> str -> bool;
  (** whether [os.makedirs] raises [OSError] *)
  makedirs_fails : trace -> str -> bool;
  (** whether [open(path, 'w')] raises [OSError] *)
  open_fails : trace -> str -> bool;
  (** the exception that [f.write] or the closing of the file raises,
      if any ([OSError], [UnicodeEncodeError], ...) *)
  write_error : trace -> str -> str -> option exn
}.

(** Module-level configuration (lines 24, 39-40). *)
Record config : Type := {
  output_folder : str;
  selected_kbs : list str
}.

(** Computations: trace passing with early termination. *)
Definition M (A : Type) : Type := trace -> outcome A * trace.

Definition ret {A : Type} (a : A) : M A := fun tr => (Ret a, tr).

Definition bind {A B : Type} (c : M A) (k : A -> M B) : M B :=
  fun tr =>
    match c tr with
    | (Ret a, tr') => k a tr'
    | (Raise e, tr') => (Raise e, tr')
    | (Exit code, tr') => (Exit code, tr')
    end.

Definition lift {A : Type} (o : outcome A) : M A := fun tr => (o, tr).

Definition emit (e : event) : M unit := fun tr => (Ret tt, tr ++ [e]).

Definition print (m : message) : M unit := emit (EPrint m).

(** [sys.exit(code)] *)
Definition sys_exit {A : Type} (code : Z) : M A := lift (Exit code).

(** [try: body / except <class> as e: handler e]; [handles] tells which
    exceptions the clause names.  [Exit] passes through. *)
Definition try_except {A : Type} (body : M A) (handles : exn -> bool)
  (handler : exn -> M A) : M A :=
  fun tr =>
    match body tr with
    | (Raise e, tr') => if handles e then handler e tr' else (Raise e, tr')
    | r => r
    end.

Definition except_Exception (e : exn) : bool := true.

Definition except_KeyError (e : exn) : bool :=
  match e with KeyError _ => true | _ => false end.

(** [for x in items: body x] *)
Fixpoint for_each {A : Type} (body : A -> M unit) (items : list A) : M unit :=
  match items with
  | [] => ret tt
  | x :: rest => bind (body x) (fun _ => for_each body rest)
  end.

Declare Scope py_scope.
Delimit Scope py_scope with py.
Notation "x <- c ;; k" := (bind c (fun x => k))
  (at level 61, c at next level, right associativity) : py_scope.
Notation "c ;;; k" := (bind c (fun _ => k))
  (at level 61, right associativity) : py_scope.
Local Open Scope py_scope.

(** The author a user reference resolves to (the dictionary of lines
    142, 148-151 and 153). *)
Record author : Type := {
  name : str;
  sys_id : value
}.

Section Program.

Variable repr_str : str -> str.
(** [html2text.HTML2Text().handle] with the options of lines 128-132. *)
Variable html2text_handle : str -> str.
Variable cfg : config.
Variable w : world.

(** [make_request] (lines 42-76) *)
Definition make_request (r : request) : M value :=
  fun tr =>
    let tr1 := tr ++ [ERequest r] in
    match http w tr r with
    | Json v => (Ret v, tr1)
    | ConnectionError =>
        (print MsgCouldNotConnect ;;; sys_exit 1) tr1
    | Timeout =>
        (print (MsgTimedOut r) ;;; sys_exit 1) tr1
    | HTTPError status_code =>
        (print (MsgHTTPFailed status_code) ;;;
         (if (status_code =? 401)%Z then print MsgAuthenticationFailed
          else if (status_code =? 403)%Z then print MsgAccessForbidden
          else ret tt) ;;;
         sys_exit 1) tr1
    | RequestException =>
        (print MsgUnexpectedRequestError ;;; sys_exit 1) tr1
    | JSONDecodeError =>
        (print (MsgInvalidJSON r) ;;; sys_exit 1) tr1
    | Uncaught e => (Raise e, tr1)
    end.

(** [create_folder] (lines 113-119) *)
Definition create_folder (path : str) : M unit :=
  fun tr =>
    if path_exists w tr path then (Ret tt, tr)
    else if makedirs_fails w tr path then (Raise OSError, tr)
    else (Ret tt, tr ++ [EMakedirs path]).

(** [convert_html_to_markdown] (lines 121-133); [handle] works on a
    string and calls string methods on its argument. *)
Definition convert_html_to_markdown (html_content : value) : outcome str :=
  match html_content with
  | VStr s => Ret (strip (html2text_handle s))
  | _ => Raise AttributeError
  end.

(** [get_user_details] (lines 135-153) *)
Definition get_user_details (user_sys_id : value) : M author :=
  if negb (truthy user_sys_id)
  then ret {| name := lit "Unknown"; sys_id := VStr [] |}
  else
    try_except
      (response <- make_request (GetUser user_sys_id) ;;
       user <- lift (py_get response (lit "result") (VDict [])) ;;
       first_name <- lift (py_get user (lit "first_name") (VStr [])) ;;
       last_name <- lift (py_get user (lit "last_name") (VStr [])) ;;
       let full := strip (py_str repr_str first_name ++ lit " " ++ py_str repr_str last_name) in
       ret {| name := match full with [] => lit "Unknown" | _ => full end;
              sys_id := user_sys_id |})
      except_Exception
      (fun _ => ret {| name := lit "Unknown"; sys_id := user_sys_id |}).

(** [not line.strip()] (line 207) *)
Definition is_blank (line : str) : bool :=
  match strip line with [] => true | _ => false end.

(** The comprehension of line 186: keep the truthy values, stringified
    and stripped. *)
Definition clean_metadata (metadata : list (str * value)) : list (str * str) :=
  List.map (fun kv => (fst kv, strip (py_str repr_str (snd kv))))
           (List.filter (fun kv => truthy (snd kv)) metadata).

(** Lines 189-192. *)
Definition frontmatter_lines (metadata : list (str * str)) : list str :=
  [lit "---"]
  ++ List.map (fun kv => fst kv ++ lit ": " ++ [ch_dquote] ++ snd kv ++ [ch_dquote])
              metadata
  ++ [lit "---"].

(** [metadata['title']] *)
Definition metadata_title (metadata : list (str * str)) : outcome str :=
  match assoc metadata (lit "title") with
  | Some t => Ret t
  | None => Raise (KeyError (lit "title"))
  end.

(** The [while] loop of lines 196-201.  The three tests are evaluated
    left to right; the second is the first to read [metadata['title']]. *)
Fixpoint drop_title_lines (metadata : list (str * str))
  (content_lines : list str) : outcome (list str) :=
  match content_lines with
  | [] => Ret []
  | line :: rest =>
      if str_eqb (strip line) [] then drop_title_lines metadata rest
      else
        let? title := metadata_title metadata in
        if startswith (strip line) (lit "# " ++ title)
           || str_eqb (strip line) title
        then drop_title_lines metadata rest
        else Ret content_lines
  end.

(** The [for] loop of lines 204-210. *)
Fixpoint collapse_blank (prev_blank : bool) (content_lines : list str)
  : list str :=
  match content_lines with
  | [] => []
  | line :: rest =>
      let blank := is_blank line in
      if negb (blank && prev_blank)
      then line :: collapse_blank blank rest
      else collapse_blank blank rest
  end.

(** Lines 194-210 and 218: the body placed under the heading. *)
Definition transformed_body (metadata : list (str * str))
  (markdown_content : str) : outcome str :=
  let? content_lines :=
    drop_title_lines metadata (split_on ch_nl markdown_content) in
  let cleaned_content := collapse_blank false content_lines in
  Ret (strip (join [ch_nl] cleaned_content)).

(** Lines 164-165: the title of the frontmatter and of the heading. *)
Definition article_title (article_data : value) : outcome str :=
  let? short_description :=
    py_get article_data (lit "short_description") VNone in
  let? title :=
    (if truthy short_description then Ret short_description
     else py_get article_data (lit "title") (VStr [])) in
  let? title := py_strip title in
  Ret (normalize_ws title).

(** The dictionary display of lines 172-183. *)
Definition article_metadata (article_data : value) (title : str)
  (author_details : author) : outcome (list (str * value)) :=
  match article_data with
  | VDict d =>
      let get key default := dict_get d (lit key) default in
      Ret [ (lit "title", VStr title);
            (lit "author", VStr (name author_details));
            (lit "author_sys_id", sys_id author_details);
            (lit "created_date", get "sys_created_on"%string (VStr []));
            (lit "updated_date", get "sys_updated_on"%string (VStr []));
            (lit "views", get "view_count"%string (VInt 0));
            (lit "rating", get "rating"%string (VStr []));
            (lit "knowledge_base", get "kb_knowledge_base.title"%string (VStr []));
            (lit "category", get "kb_category.label"%string (VStr []));
            (lit "sys_id", get "sys_id"%string (VStr [])) ]
  | _ => Raise AttributeError
  end.

(** [format_article_markdown] (lines 155-221).  The body of line 218 is
    computed before the heading of line 216: neither has an effect, and
    both can only raise [KeyError('title')]. *)
Definition format_article_markdown (article_data : value)
  (markdown_content : str) (file_path : str) : M str :=
  title <- lift (article_title article_data) ;;
  author_ref <- lift (py_get article_data (lit "author") (VDict [])) ;;
  author_sys_id <- lift (py_get author_ref (lit "value") (VStr [])) ;;
  author_details <- get_user_details author_sys_id ;;
  metadata <- lift (article_metadata article_data title author_details) ;;
  let metadata := clean_metadata metadata in
  let frontmatter := frontmatter_lines metadata in
  body <- lift (transformed_body metadata markdown_content) ;;
  heading <- lift (metadata_title metadata) ;;
  ret (join [ch_nl]
         [ join [ch_nl] frontmatter; []; lit "# " ++ heading; []; body ]).

(** [open(file_path, 'w', encoding='utf-8')] and [f.write] (lines 238-239) *)
Definition write_file (file_path content : str) : M unit :=
  fun tr =>
    if open_fails w tr file_path then (Raise OSError, tr)
    else
      let tr1 := tr ++ [EOpen file_path] in
      match write_error w tr1 file_path content with
      | Some e => (Raise e, tr1)
      | None => (Ret tt, tr1 ++ [EWrite file_path content])
      end.

(** [print_article_content] (lines 223-239) *)
Definition print_article_content (original_title sanitized_title : str)
  (article_data : value) (file_path : str) : M unit :=
  text <- lift (py_get article_data (lit "text") (VStr [])) ;;
  markdown_content <- lift (convert_html_to_markdown text) ;;
  full_markdown <- format_article_markdown article_data markdown_content file_path ;;
  write_file file_path full_markdown.

(** [sanitize_filename] applied to an object that need not be a string:
    a falsy object gives the placeholder (line 84), a string is
    sanitized, any other object has no [replace] method (line 90). *)
Definition sanitize_filename_dyn (filename : value) : outcome str :=
  if negb (truthy filename) then Ret (lit "unnamed")
  else match filename with
       | VStr s => Ret (sanitize_filename s)
       | _ => Raise AttributeError
       end.

(** [os.path.join(a, b)] of [posixpath] *)
Definition os_path_join (a b : str) : str :=
  if startswith b (lit "/") then b
  else match rev a with
       | [] => b
       | c :: _ => if c =? 47 then a ++ b else a ++ lit "/" ++ b
       end.

(** The dictionary comprehension of line 266, one item at a time. *)
Fixpoint build_categories (items : list value) (categories : list (str * value))
  : outcome (list (str * value)) :=
  match items with
  | [] => Ret categories
  | cat :: rest =>
      let? cat_sys_id := py_getitem cat (lit "sys_id") in
      build_categories rest
        (assoc_set categories (py_str repr_str cat_sys_id) cat)
  end.

(** The list comprehension of line 259, one item at a time. *)
Fixpoint filter_knowledge_bases (items : list value) : outcome (list value) :=
  match items with
  | [] => Ret []
  | kb :: rest =>
      let? title := py_get kb (lit "title") (VStr []) in
      let? title := py_strip title in
      let? kept := filter_knowledge_bases rest in
      Ret (if existsb (str_eqb title) (selected_kbs cfg)
           then kb :: kept else kept)
  end.

(** One iteration of the article loop (lines 291-329). *)
Definition process_article (categories : list (str * value))
  (kb_folder kb_title : str) (article : value) : M unit :=
  try_except
    (article_id <- lift (py_get article (lit "sys_id") VNone) ;;
     if negb (truthy article_id) then ret tt
     else
       article_response <- make_request (GetArticle article_id) ;;
       article_data <- lift (py_getitem article_response (lit "result")) ;;
       short_description <-
         lift (py_get article_data (lit "short_description") VNone) ;;
       title <-
         (if truthy short_description then ret short_description
          else lift (py_get article_data (lit "title")
                       (VStr (lit "Unnamed Article " ++ py_str repr_str article_id)))) ;;
       original_title <- lift (py_strip title) ;;
       let article_title := sanitize_filename original_title in
       kb_category <- lift (py_get article_data (lit "kb_category") (VStr [])) ;;
       let category_id := py_str repr_str kb_category in
       destination <-
         match (if truthy (VStr category_id) then assoc categories category_id
                else None) with
         | Some category =>
             label <- lift (py_get category (lit "label")
                              (VStr (lit "Unnamed_Category"))) ;;
             category_title <- lift (sanitize_filename_dyn label) ;;
             let category_folder := os_path_join kb_folder category_title in
             create_folder category_folder ;;;
             ret (category_folder, kb_title ++ lit "/" ++ category_title)
         | None => ret (kb_folder, kb_title)
         end ;;
       let save_folder := fst destination in
       let location := snd destination in
       let file_path := os_path_join save_folder (article_title ++ lit ".md") in
       print (MsgArticle location article_title) ;;;
       print_article_content original_title article_title article_data file_path)
    except_KeyError
    (fun e => print (MsgSkippingArticle e)).

(** One iteration of the knowledge-base loop (lines 270-333). *)
Definition process_knowledge_base (categories : list (str * value))
  (kb : value) : M unit :=
  try_except
    (title <- lift (py_get kb (lit "title") (VStr (lit "Unnamed Knowledge Base"))) ;;
     kb_title <- lift (sanitize_filename_dyn title) ;;
     let kb_folder := os_path_join (output_folder cfg) kb_title in
     create_folder kb_folder ;;;
     print (MsgProcessing kb_title) ;;;
     print (MsgUnderline (List.length kb_title + 24)) ;;;
     kb_sys_id <- lift (py_getitem kb (lit "sys_id")) ;;
     articles_response <- make_request (GetArticles kb_sys_id) ;;
     articles <- lift (py_get articles_response (lit "result") (VList [])) ;;
     if negb (truthy articles) then print (MsgNoArticles kb_title)
     else
       items <- lift (py_iter articles) ;;
       for_each (process_article categories kb_folder kb_title) items)
    except_KeyError
    (fun e => print (MsgKnowledgeBaseError e)).

(** Lines 264-336: what [main] does with the retained knowledge bases. *)
Definition export_knowledge_bases (knowledge_bases : value) : M unit :=
  cat_response <- make_request GetCategories ;;
  cats <- lift (py_get cat_response (lit "result") (VList [])) ;;
  cats <- lift (py_iter cats) ;;
  categories <- lift (build_categories cats []) ;;
  kbs <- lift (py_iter knowledge_bases) ;;
  for_each (process_knowledge_base categories) kbs ;;;
  print MsgCompleted ;;;
  print (MsgSavedTo (output_folder cfg)).

(** Lines 256-262: the knowledge bases that pass the filter, or [None]
    where [main] returns. *)
Definition select_knowledge_bases (knowledge_bases : value) : M (option value) :=
  match selected_kbs cfg with
  | [] => ret (Some knowledge_bases)
  | _ =>
      print (MsgFiltering (selected_kbs cfg)) ;;;
      items <- lift (py_iter knowledge_bases) ;;
      kept <- lift (filter_knowledge_bases items) ;;
      if negb (truthy (VList kept))
      then print MsgNoMatchingKnowledgeBases ;;; ret None
      else ret (Some (VList kept))
  end.

(** [main] (lines 241-340) *)
Definition main : M unit :=
  try_except
    (create_folder (output_folder cfg) ;;;
     print MsgStarting ;;;
     print MsgFetching ;;;
     kb_response <- make_request GetKnowledgeBases ;;
     knowledge_bases <- lift (py_get kb_response (lit "result") (VList [])) ;;
     if negb (truthy knowledge_bases) then print MsgNoKnowledgeBases
     else
       selected <- select_knowledge_bases knowledge_bases ;;
       match selected with
       | None => ret tt
       | Some knowledge_bases => export_knowledge_bases knowledge_bases
       end)
    except_Exception
    (fun e => print (MsgUnexpectedError e) ;;; sys_exit 1).

End Program.

(** The exit status of the process when [main] ends with [o]. *)
Definition exit_status (o : outcome unit) : Z :=
  match o with
  | Ret _ => 0
  | Raise _ => 1
  | Exit code => code
  end.

(** * Properties *)

(** ** Strings *)

Module PyStrFacts.

Lemma str_eqb_eq (a b : str) : str_eqb a b = true <-> a = b.
Proof.
  unfold str_eqb. destruct (list_eq_dec N.eq_dec a b); split;
    intros; congruence.
Qed.

Lemma str_eqb_refl (a : str) : str_eqb a a = true.
Proof. apply str_eqb_eq. reflexivity. Qed.

Lemma str_eqb_neq (a b : str) : str_eqb a b = false <-> a <> b.
Proof.
  unfold str_eqb. destruct (list_eq_dec N.eq_dec a b); split;
    intros; congruence.
Qed.

Lemma mem_In (c : char) (cs : str) : mem c cs = true <-> In c cs.
Proof.
  unfold mem. rewrite existsb_exists. split.
  - intros (x & Hx & E). apply N.eqb_eq in E. now subst.
  - intros H. exists c. split; [assumption | apply N.eqb_refl].
Qed.

Lemma mem_false (c : char) (cs : str) : mem c cs = false <-> ~ In c cs.
Proof.
  rewrite <- mem_In. destruct (mem c cs); split; intros; congruence.
Qed.

Section Strip.

Variable p : char -> bool.

Lemma lstrip_by_Forall (P : char -> Prop) (s : str) :
  Forall P s -> Forall P (lstrip_by p s).
Proof.
  induction 1 as [|c s Hc Hs IH]; simpl; [constructor|].
  destruct (p c); [assumption | now constructor].
Qed.

Lemma rstrip_by_Forall (P : char -> Prop) (s : str) :
  Forall P s -> Forall P (rstrip_by p s).
Proof.
  induction 1 as [|c s Hc Hs IH]; simpl; [constructor|].
  destruct (rstrip_by p s) as [|r rs].
  - destruct (p c); repeat constructor; assumption.
  - now constructor.
Qed.

Lemma lstrip_by_length (s : str) :
  (List.length (lstrip_by p s) <= List.length s)%nat.
Proof.
  induction s as [|c s IH]; simpl; [lia|].
  destruct (p c); simpl; lia.
Qed.

Lemma rstrip_by_length (s : str) :
  (List.length (rstrip_by p s) <= List.length s)%nat.
Proof.
  induction s as [|c s IH]; simpl; [lia|].
  destruct (rstrip_by p s); [destruct (p c)|]; simpl in *; lia.
Qed.

(** The last character of a right-stripped string is not stripped. *)
Lemma rstrip_by_last (s : str) (r : str) (c : char) :
  rstrip_by p s = r ++ [c] -> p c = false.
Proof.
  revert r. induction s as [|a s IH]; intros r; simpl.
  - destruct r; discriminate.
  - destruct (rstrip_by p s) as [|x xs] eqn:E.
    + destruct (p a) eqn:Pa.
      * destruct r; discriminate.
      * intros H. destruct r as [|y [|z r]]; try discriminate.
        now injection H as <-.
    + intros H. destruct r as [|y r].
      * discriminate.
      * injection H as _ H. now apply (IH r).
Qed.

(** Right-stripping changes nothing when the last character stays. *)
Lemma rstrip_by_id (s : str) :
  (forall r c, s = r ++ [c] -> p c = false) -> rstrip_by p s = s.
Proof.
  induction s as [|a s IH]; intros H; simpl; [reflexivity|].
  destruct s as [|b s].
  - simpl. rewrite (H [] a eq_refl). reflexivity.
  - rewrite IH.
    + reflexivity.
    + intros r c E. apply (H (a :: r) c). simpl. now rewrite E.
Qed.

Lemma lstrip_by_id (s : str) :
  Forall (fun c => p c = false) s -> lstrip_by p s = s.
Proof.
  destruct 1 as [|c s Hc Hs]; simpl; [reflexivity|]. now rewrite Hc.
Qed.

Lemma rstrip_by_id_Forall (s : str) :
  Forall (fun c => p c = false) s -> rstrip_by p s = s.
Proof.
  intros H. apply rstrip_by_id. intros r c ->.
  apply Forall_app in H as [_ H]. now inversion H.
Qed.

(** Stripping a string of stripped characters leaves nothing. *)
Lemma lstrip_by_all (s : str) :
  Forall (fun c => p c = true) s -> lstrip_by p s = [].
Proof.
  induction 1 as [|c s Hc Hs IH]; simpl; [reflexivity|]. now rewrite Hc.
Qed.

Lemma rstrip_by_all (s : str) :
  Forall (fun c => p c = true) s -> rstrip_by p s = [].
Proof.
  induction 1 as [|c s Hc Hs IH]; simpl; [reflexivity|]. now rewrite IH, Hc.
Qed.

Lemma rstrip_by_nil_inv (s : str) :
  rstrip_by p s = [] -> Forall (fun c => p c = true) s.
Proof.
  induction s as [|c s IH]; simpl; [constructor|].
  destruct (rstrip_by p s) eqn:E; [|discriminate].
  destruct (p c) eqn:Pc; [|discriminate].
  intros _. constructor; auto.
Qed.

Lemma rstrip_by_app (a b : str) :
  rstrip_by p (a ++ b) =
  match rstrip_by p b with
  | [] => rstrip_by p a
  | r => a ++ r
  end.
Proof.
  induction a as [|c a IH]; simpl.
  - destruct (rstrip_by p b); reflexivity.
  - rewrite IH. destruct (rstrip_by p b) as [|x xs]; [reflexivity|].
    destruct (a ++ x :: xs) eqn:E; [|reflexivity].
    destruct a; discriminate.
Qed.

Lemma lstrip_by_app_all (a b : str) :
  Forall (fun c => p c = true) a -> lstrip_by p (a ++ b) = lstrip_by p b.
Proof.
  induction 1 as [|c a Hc Ha IH]; simpl; [reflexivity|]. now rewrite Hc.
Qed.

Lemma lstrip_by_app_some (a b : str) :
  lstrip_by p a <> [] -> lstrip_by p (a ++ b) = lstrip_by p a ++ b.
Proof.
  induction a as [|c a IH]; simpl; [congruence|].
  destruct (p c); [exact IH | reflexivity].
Qed.

Lemma lstrip_by_nil_inv (s : str) :
  lstrip_by p s = [] -> Forall (fun c => p c = true) s.
Proof.
  induction s as [|c s IH]; simpl; [constructor|].
  destruct (p c) eqn:Pc; [|discriminate]. intros H. constructor; auto.
Qed.

End Strip.

Lemma strip_Forall (P : char -> Prop) (s : str) :
  Forall P s -> Forall P (strip s).
Proof. intros H. now apply rstrip_by_Forall, lstrip_by_Forall. Qed.

Lemma strip_length (s : str) : (List.length (strip s) <= List.length s)%nat.
Proof.
  unfold strip.
  pose proof (rstrip_by_length isspace (lstrip_by isspace s)).
  pose proof (lstrip_by_length isspace s). lia.
Qed.

Lemma strip_id (s : str) :
  Forall (fun c => isspace c = false) s -> strip s = s.
Proof.
  intros H. unfold strip. rewrite lstrip_by_id by assumption.
  now apply rstrip_by_id_Forall.
Qed.

(** A string strips to nothing exactly when it is all whitespace. *)
Lemma strip_nil_iff (s : str) :
  strip s = [] <-> Forall (fun c => isspace c = true) s.
Proof.
  unfold strip. split.
  - intros H. apply rstrip_by_nil_inv in H. revert H.
    induction s as [|c s IH]; simpl; [constructor|].
    destruct (isspace c) eqn:E.
    + intros H. constructor; auto.
    + intros H. inversion H; congruence.
  - intros H. now rewrite lstrip_by_all.
Qed.

Lemma replace_char_Forall (P : char -> Prop) (c d : char) (s : str) :
  P d -> Forall P s -> Forall P (replace_char c d s).
Proof.
  intros Hd H. unfold replace_char. rewrite Forall_map.
  eapply Forall_impl; [|exact H]. intros x Hx. simpl.
  destruct (x =? c); assumption.
Qed.

Lemma replace_char_id (c d : char) (s : str) :
  ~ In c s -> replace_char c d s = s.
Proof.
  intros H. unfold replace_char. rewrite <- (map_id s) at 2.
  apply map_ext_in. intros x Hx. destruct (N.eqb_spec x c); [|reflexivity].
  subst. contradiction.
Qed.

Lemma join_Forall (P : char -> Prop) (sep : str) (parts : list str) :
  Forall P sep -> Forall (Forall P) parts -> Forall P (join sep parts).
Proof.
  intros Hsep. induction 1 as [|x l Hx Hl IH]; simpl; [constructor|].
  destruct l; [assumption|].
  apply Forall_app. split; [assumption|]. apply Forall_app. now split.
Qed.

Lemma split_ws_aux_Forall (P : char -> Prop) (s cur : str) :
  Forall P cur -> Forall P s -> Forall (Forall P) (split_ws_aux cur s).
Proof.
  intros Hcur Hs. revert cur Hcur.
  induction Hs as [|c s Hc Hs IH]; intros cur Hcur; simpl.
  - destruct cur; repeat constructor. now apply Forall_rev.
  - destruct (isspace c).
    + destruct cur; [now apply IH|].
      constructor; [now apply Forall_rev | apply IH; constructor].
    + apply IH. now constructor.
Qed.

(** Every word of [s.split()] is free of whitespace. *)
Lemma split_ws_aux_nonspace (s cur : str) :
  Forall (fun c => isspace c = false) cur ->
  Forall (Forall (fun c => isspace c = false)) (split_ws_aux cur s).
Proof.
  revert cur. induction s as [|c s IH]; intros cur Hcur; simpl.
  - destruct cur; repeat constructor. now apply Forall_rev.
  - destruct (isspace c) eqn:E.
    + destruct cur; [now apply IH|].
      constructor; [now apply Forall_rev | apply IH; constructor].
    + apply IH. now constructor.
Qed.

(** A string without whitespace is a single word. *)
Lemma split_ws_aux_single (s cur : str) :
  Forall (fun c => isspace c = false) s ->
  split_ws_aux cur s =
  match rev cur ++ s with [] => [] | x => [x] end.
Proof.
  intros H. revert cur. induction H as [|c s Hc Hs IH]; intros cur; simpl.
  - rewrite app_nil_r. destruct cur as [|a cur]; [reflexivity|].
    simpl. destruct (rev cur ++ [a]) eqn:E; [|reflexivity].
    destruct (rev cur); discriminate.
  - rewrite Hc, IH. simpl. now rewrite <- app_assoc.
Qed.

Lemma normalize_ws_Forall (P : char -> Prop) (s : str) :
  P ch_space -> Forall P s -> Forall P (normalize_ws s).
Proof.
  intros Hsp H. unfold normalize_ws. apply join_Forall.
  - now constructor.
  - apply split_ws_aux_Forall; [constructor | assumption].
Qed.

(** After normalisation the only whitespace left is the plain space. *)
Lemma normalize_ws_spaces (s : str) :
  Forall (fun c => isspace c = false \/ c = ch_space) (normalize_ws s).
Proof.
  unfold normalize_ws. apply join_Forall.
  - constructor; [now right | constructor].
  - eapply Forall_impl; [|apply (split_ws_aux_nonspace s []); constructor].
    intros w Hw. eapply Forall_impl; [|exact Hw]. intros c Hc. now left.
Qed.

Lemma normalize_ws_id (s : str) :
  Forall (fun c => isspace c = false) s -> normalize_ws s = s.
Proof.
  intros H. unfold normalize_ws, split_ws.
  rewrite split_ws_aux_single by assumption. simpl.
  destruct s; reflexivity.
Qed.

Lemma firstn_Forall (P : char -> Prop) (n : nat) (s : str) :
  Forall P s -> Forall P (firstn n s).
Proof.
  intros H. revert n. induction H as [|c s Hc Hs IH]; intros [|n]; simpl;
    try constructor; auto.
Qed.

End PyStrFacts.

Import PyStrFacts.

(** ** The filename sanitizer *)

Module SanitizeFacts.

Definition valid_char (c : char) : Prop := mem c invalid_chars = false.
Definition nonspace (c : char) : Prop := isspace c = false.

(** What the replacement loop of lines 89-90 does to one character. *)
Definition replace_all (cs : str) (d : char) (x : char) : char :=
  fold_left (fun y c => if y =? c then d else y) cs x.

Lemma fold_replace_char (cs : str) (d : char) (s : str) :
  fold_left (fun f c => replace_char c d f) cs s = List.map (replace_all cs d) s.
Proof.
  revert s. induction cs as [|c cs IH]; intros s; simpl.
  - now rewrite map_id.
  - rewrite IH. unfold replace_char. rewrite map_map. reflexivity.
Qed.

Lemma replace_all_cases (cs : str) (d x : char) :
  replace_all cs d x = replace_all cs d d
  \/ (replace_all cs d x = x /\ ~ In x cs).
Proof.
  unfold replace_all. revert x. induction cs as [|c cs IH]; intros x; simpl.
  - right. auto.
  - destruct (N.eqb_spec x c) as [->|Hxc].
    + left. destruct (N.eqb_spec d c); reflexivity.
    + destruct (IH x) as [H | [H1 H2]].
      * left. rewrite H. destruct (N.eqb_spec d c) as [->|_]; [|reflexivity].
        destruct (IH c) as [H' | [H' _]]; congruence.
      * right. split; [assumption|]. intros [E|E]; [congruence | contradiction].
Qed.

Lemma replace_all_valid (x : char) :
  valid_char (replace_all invalid_chars ch_underscore x).
Proof.
  unfold valid_char.
  destruct (replace_all_cases invalid_chars ch_underscore x) as [H | [H1 H2]].
  - rewrite H. reflexivity.
  - rewrite H1. now apply mem_false.
Qed.

Lemma replace_all_notin (cs : str) (d x : char) :
  ~ In x cs -> replace_all cs d x = x.
Proof.
  unfold replace_all. induction cs as [|c cs IH]; intros H; simpl.
  - reflexivity.
  - destruct (N.eqb_spec x c) as [->|_].
    + exfalso. apply H. now left.
    + apply IH. intros Hin. apply H. now right.
Qed.

Lemma replace_all_id (x : char) :
  valid_char x -> replace_all invalid_chars ch_underscore x = x.
Proof. intros H. apply replace_all_notin. now apply mem_false. Qed.

(** The string after lines 89-101: no invalid character and no
    whitespace is left. *)
Definition cleaned (filename : str) : str :=
  replace_char ch_space ch_dash
    (replace_char ch_tab ch_space
       (replace_char ch_nl ch_space
          (strip
             (normalize_ws
                (fold_left (fun f c => replace_char c ch_underscore f)
                           invalid_chars filename))))).

Lemma cleaned_valid (x : str) : Forall valid_char (cleaned x).
Proof.
  unfold cleaned.
  repeat (apply replace_char_Forall; [reflexivity|]).
  apply strip_Forall, normalize_ws_Forall; [reflexivity|].
  rewrite fold_replace_char, Forall_map.
  apply Forall_forall. intros c _. apply replace_all_valid.
Qed.

Lemma cleaned_nonspace (x : str) : Forall nonspace (cleaned x).
Proof.
  unfold cleaned.
  set (s := strip _).
  assert (Hs : Forall (fun c => isspace c = false \/ c = ch_space) s).
  { apply strip_Forall, normalize_ws_spaces. }
  unfold replace_char. rewrite !map_map, Forall_map.
  eapply Forall_impl; [|exact Hs]. intros c [Hc | ->]; [|reflexivity].
  unfold nonspace.
  destruct (N.eqb_spec c ch_nl) as [->|_]; [discriminate|].
  destruct (N.eqb_spec c ch_tab) as [->|_]; [discriminate|].
  destruct (N.eqb_spec c ch_space) as [->|_]; [discriminate|].
  assumption.
Qed.

Lemma sanitize_filename_unfold (x : str) :
  x <> [] ->
  sanitize_filename x =
  let r := rstrip_chars (lit "_-") (cleaned x) in
  if (max_length <? List.length r)%nat
  then rstrip_chars (lit "_-") (strip (firstn max_length r))
  else r.
Proof. destruct x; [congruence | reflexivity]. Qed.

Lemma sanitize_filename_valid (x : str) : Forall valid_char (sanitize_filename x).
Proof.
  destruct x as [|a x].
  - simpl. repeat constructor.
  - rewrite sanitize_filename_unfold by discriminate. cbv zeta.
    pose proof (cleaned_valid (a :: x)) as H.
    destruct (_ <? _)%nat; unfold rstrip_chars;
      repeat first [apply strip_Forall | apply rstrip_by_Forall
                   | apply lstrip_by_Forall | apply firstn_Forall];
      assumption.
Qed.

Lemma sanitize_filename_nonspace (x : str) :
  Forall nonspace (sanitize_filename x).
Proof.
  destruct x as [|a x].
  - simpl. repeat constructor.
  - rewrite sanitize_filename_unfold by discriminate. cbv zeta.
    pose proof (cleaned_nonspace (a :: x)) as H.
    destruct (_ <? _)%nat; unfold rstrip_chars;
      repeat first [apply strip_Forall | apply rstrip_by_Forall
                   | apply lstrip_by_Forall | apply firstn_Forall];
      assumption.
Qed.

Lemma sanitize_filename_last (x r : str) (c : char) :
  sanitize_filename x = r ++ [c] -> c <> ch_underscore /\ c <> ch_dash.
Proof.
  intros H.
  assert (Hc : mem c (lit "_-") = false).
  { destruct x as [|a x].
    - simpl in H.
      change (lit "unnamed") with ([117; 110; 110; 97; 109; 101] ++ [100]) in H.
      apply app_inj_tail in H as [_ <-]. reflexivity.
    - rewrite sanitize_filename_unfold in H by discriminate. cbv zeta in H.
      destruct (_ <? _)%nat; unfold rstrip_chars in H;
        now apply rstrip_by_last in H. }
  split; intros ->; discriminate.
Qed.

Lemma sanitize_filename_length (x : str) :
  (List.length (sanitize_filename x) <= max_length)%nat.
Proof.
  destruct x as [|a x].
  - simpl. unfold max_length. lia.
  - rewrite sanitize_filename_unfold by discriminate. cbv zeta.
    destruct (Nat.ltb_spec max_length
                (List.length (rstrip_chars (lit "_-") (cleaned (a :: x)))))
      as [Hlt | Hle]; [|assumption].
    unfold rstrip_chars at 1.
    etransitivity; [apply rstrip_by_length|].
    etransitivity; [apply strip_length|].
    rewrite length_firstn. lia.
Qed.

(** On a non-empty string that is already clean the sanitizer changes
    nothing. *)
Lemma sanitize_filename_fixpoint (r : str) :
  r <> [] ->
  Forall valid_char r ->
  Forall nonspace r ->
  (forall r' c, r = r' ++ [c] -> c <> ch_underscore /\ c <> ch_dash) ->
  (List.length r <= max_length)%nat ->
  sanitize_filename r = r.
Proof.
  intros Hne Hvalid Hns Hlast Hlen.
  rewrite sanitize_filename_unfold by assumption. cbv zeta.
  assert (Hclean : cleaned r = r).
  { unfold cleaned.
    rewrite fold_replace_char.
    replace (List.map (replace_all invalid_chars ch_underscore) r) with r.
    2:{ rewrite <- (map_id r) at 1. apply map_ext_in. intros c Hc.
        symmetry. apply replace_all_id.
        rewrite Forall_forall in Hvalid. now apply Hvalid. }
    rewrite normalize_ws_id, strip_id by assumption.
    assert (Hno : forall c, isspace c = true -> ~ In c r).
    { intros c Hc Hin. rewrite Forall_forall in Hns.
      specialize (Hns c Hin). unfold nonspace in Hns. congruence. }
    rewrite (replace_char_id ch_nl) by (apply Hno; reflexivity).
    rewrite (replace_char_id ch_tab) by (apply Hno; reflexivity).
    apply replace_char_id, Hno. reflexivity. }
  rewrite Hclean.
  assert (Hr : rstrip_chars (lit "_-") r = r).
  { apply rstrip_by_id. intros r' c E. destruct (Hlast r' c E) as [H1 H2].
    simpl. destruct (N.eqb_spec c 95); [contradiction|].
    destruct (N.eqb_spec c 45); [contradiction|]. reflexivity. }
  rewrite Hr.
  destruct (Nat.ltb_spec max_length (List.length r)); [lia | reflexivity].
Qed.

End SanitizeFacts.

Import SanitizeFacts.

(** What the specification asks of a sanitized name. *)
Definition claimed_sanitized (r : str) : Prop :=
  r <> []
  /\ Forall (fun c => ~ In c invalid_chars) r
  /\ (forall c r', r = c :: r' ->
        c <> ch_underscore /\ c <> ch_dash /\ isspace c = false)
  /\ (forall r' c, r = r' ++ [c] ->
        c <> ch_underscore /\ c <> ch_dash /\ isspace c = false)
  /\ (List.length r <= 100)%nat.

(** C2, as the code has it: for every input string the sanitized name
    contains none of the nine invalid characters, contains no whitespace
    at all, does not end with an underscore or a dash, and is at most 100
    characters long; the empty input gives [unnamed]. *)
Theorem sanitize_filename_safe (x : str) :
  Forall (fun c => ~ In c invalid_chars) (sanitize_filename x)
  /\ Forall (fun c => isspace c = false) (sanitize_filename x)
  /\ (forall r c, sanitize_filename x = r ++ [c] ->
        c <> ch_underscore /\ c <> ch_dash)
  /\ (List.length (sanitize_filename x) <= 100)%nat
  /\ (x = [] -> sanitize_filename x = lit "unnamed").
Proof.
  split; [|split; [|split; [|split]]].
  - eapply Forall_impl; [|apply sanitize_filename_valid].
    intros c Hc. now apply mem_false.
  - apply sanitize_filename_nonspace.
  - intros r c. apply sanitize_filename_last.
  - apply sanitize_filename_length.
  - intros ->. reflexivity.
Qed.

(** Witness of C2: a title with invalid characters, blanks at both ends
    and a trailing underscore, whose cleaning goes through every step of
    lines 88-104; and the empty input. *)
Lemma sanitize_filename_safe_witness :
  sanitize_filename (lit " A/B: notes_ ") = lit "A_B_-notes"
  /\ Forall (fun c => ~ In c invalid_chars)
            (sanitize_filename (lit " A/B: notes_ "))
  /\ Forall (fun c => isspace c = false)
            (sanitize_filename (lit " A/B: notes_ "))
  /\ (115 <> ch_underscore /\ 115 <> ch_dash)
  /\ (List.length (sanitize_filename (lit " A/B: notes_ ")) <= 100)%nat
  /\ sanitize_filename [] = lit "unnamed".
Proof.
  destruct (sanitize_filename_safe (lit " A/B: notes_ "))
    as (Hvalid & Hspace & Hlast & Hlen & _).
  destruct (sanitize_filename_safe []) as (_ & _ & _ & _ & Hempty).
  split; [reflexivity|]. split; [exact Hvalid|]. split; [exact Hspace|].
  split; [apply (Hlast (lit "A_B_-note") 115); reflexivity|].
  split; [exact Hlen | now apply Hempty].
Defined.

(** C2 fails as stated: a name made of invalid characters or whitespace
    sanitizes to the empty string, and the leading underscore of [_a]
    and the leading dash of [-a] remain. *)
Lemma sanitize_filename_claim_fails :
  ~ claimed_sanitized (sanitize_filename (lit "?"))
  /\ ~ claimed_sanitized (sanitize_filename (lit " "))
  /\ ~ claimed_sanitized (sanitize_filename (lit "_a"))
  /\ ~ claimed_sanitized (sanitize_filename (lit "-a")).
Proof.
  repeat split; intros (Hne & _ & Hfirst & _).
  - now apply Hne.
  - now apply Hne.
  - destruct (Hfirst _ _ eq_refl) as [H _]. now apply H.
  - destruct (Hfirst _ _ eq_refl) as (_ & H & _). now apply H.
Qed.

(** The sanitizer is idempotent wherever its result is not empty. *)
Lemma sanitize_filename_idempotent_nonempty (x : str) :
  sanitize_filename x <> [] ->
  sanitize_filename (sanitize_filename x) = sanitize_filename x.
Proof.
  intros Hne. apply sanitize_filename_fixpoint.
  - assumption.
  - apply sanitize_filename_valid.
  - apply sanitize_filename_nonspace.
  - intros r c. apply sanitize_filename_last.
  - apply sanitize_filename_length.
Qed.

(** C3 at a title made of one question mark: the sanitized name is
    empty, and sanitizing it again gives [unnamed]. *)
Theorem sanitize_filename_not_idempotent :
  sanitize_filename (lit "?") = []
  /\ sanitize_filename (sanitize_filename (lit "?")) = lit "unnamed"
  /\ sanitize_filename (sanitize_filename (lit "?"))
     <> sanitize_filename (lit "?").
Proof. repeat split. discriminate. Qed.

(** ** Author resolution *)

Module AuthorFacts.

Definition unknown (user_sys_id : value) : author :=
  {| name := lit "Unknown"; sys_id := user_sys_id |}.

(** A user record of an instance: first and last name. *)
Definition user_record (first_name last_name : string) : value :=
  VDict [(lit "result",
          VDict [(lit "first_name", VStr (lit first_name));
                 (lit "last_name", VStr (lit last_name))])].

(** An instance that has no user record: every user lookup is answered
    with status 404. *)
Definition no_users : world := {|
  http := fun _ r =>
    match r with
    | GetUser _ => HTTPError 404
    | _ => Json (VDict [])
    end;
  path_exists := fun _ _ => false;
  makedirs_fails := fun _ _ => false;
  open_fails := fun _ _ => false;
  write_error := fun _ _ _ => None
|}.

Section Lookup.

Variable repr_str : str -> str.
Variable w : world.

(** A missing or empty reference needs no request. *)
Lemma get_user_details_missing_id (user_sys_id : value) (tr : trace) :
  truthy user_sys_id = false ->
  get_user_details repr_str w user_sys_id tr = (Ret (unknown (VStr [])), tr).
Proof.
  intros H. unfold get_user_details. rewrite H. reflexivity.
Qed.

(** When the request is answered with a body, the lookup returns: the
    name found, or the placeholder when the body is not a user record. *)
Lemma get_user_details_answered (user_sys_id v : value) (tr : trace) :
  truthy user_sys_id = true ->
  http w tr (GetUser user_sys_id) = Json v ->
  exists n,
    get_user_details repr_str w user_sys_id tr
    = (Ret {| name := n; sys_id := user_sys_id |},
       tr ++ [ERequest (GetUser user_sys_id)])
    /\ n <> [].
Proof.
  intros Hid Hv. unfold get_user_details. rewrite Hid. simpl.
  unfold try_except, bind, make_request, lift. rewrite Hv.
  destruct v as [| | | | |d]; simpl;
    try (exists (lit "Unknown"); split; [reflexivity | discriminate]).
  destruct (dict_get d (lit "result") (VDict [])) as [| | | | |u]; simpl;
    try (exists (lit "Unknown"); split; [reflexivity | discriminate]).
  destruct (strip _) eqn:E.
  - exists (lit "Unknown"). split; [reflexivity | discriminate].
  - eexists. split; [reflexivity | discriminate].
Qed.

(** When the request fails in one of the ways [make_request] handles,
    [make_request] ends the process: the handler of line 152 is not
    reached. *)
Lemma get_user_details_failed (user_sys_id : value) (tr : trace) :
  truthy user_sys_id = true ->
  (forall v, http w tr (GetUser user_sys_id) <> Json v) ->
  (forall e, http w tr (GetUser user_sys_id) <> Uncaught e) ->
  fst (get_user_details repr_str w user_sys_id tr) = Exit 1.
Proof.
  intros Hid Hv He. unfold get_user_details. rewrite Hid. simpl.
  unfold try_except, bind, make_request, lift.
  destruct (http w tr (GetUser user_sys_id)) as [| |status| | |e|v]; simpl;
    try reflexivity.
  - destruct (status =? 401)%Z; [reflexivity|].
    destruct (status =? 403)%Z; reflexivity.
  - now destruct (He e).
  - now destruct (Hv v).
Qed.

(** An exception that [make_request] lets through is stopped by the
    handler of line 152. *)
Lemma get_user_details_uncaught (user_sys_id : value) (tr : trace) (e : exn) :
  truthy user_sys_id = true ->
  http w tr (GetUser user_sys_id) = Uncaught e ->
  get_user_details repr_str w user_sys_id tr
  = (Ret (unknown user_sys_id), tr ++ [ERequest (GetUser user_sys_id)]).
Proof.
  intros Hid He. unfold get_user_details. rewrite Hid. simpl.
  unfold try_except, bind, make_request, lift. rewrite He. reflexivity.
Qed.

End Lookup.

End AuthorFacts.

Import AuthorFacts.

(** C1 at a user reference whose record the instance does not have: the
    lookup is answered with status 404, [make_request] prints the
    diagnostic and exits with status 1, and [get_user_details] does not
    return the placeholder. *)
Theorem get_user_details_http_error_exits :
  get_user_details (fun s => s) no_users (VStr (lit "u1")) []
  = (Exit 1,
     [ERequest (GetUser (VStr (lit "u1"))); EPrint (MsgHTTPFailed 404)])
  /\ get_user_details (fun s => s) no_users (VStr (lit "u1")) []
     <> (Ret (unknown (VStr (lit "u1"))),
         [ERequest (GetUser (VStr (lit "u1")))]).
Proof. split; [reflexivity | discriminate]. Qed.

(** ** The content transformer *)

(** No blank line directly follows a blank line. *)
Fixpoint no_double_blank (lines : list str) : bool :=
  match lines with
  | a :: ((b :: _) as rest) =>
      negb (is_blank a && is_blank b) && no_double_blank rest
  | _ => true
  end.

Module LinesFacts.

Definition nonblank (line : str) : bool := negb (is_blank line).

Definition no_nl (line : str) : Prop := Forall (fun c => c <> ch_nl) line.

Lemma is_blank_iff (l : str) :
  is_blank l = true <-> Forall (fun c => isspace c = true) l.
Proof.
  unfold is_blank. rewrite <- strip_nil_iff.
  destruct (strip l); split; intros; congruence.
Qed.

Lemma is_blank_eqb (l : str) : str_eqb (strip l) [] = is_blank l.
Proof.
  unfold is_blank. destruct (strip l) eqn:E.
  - apply str_eqb_refl.
  - now apply str_eqb_neq.
Qed.

Lemma lstrip_nonblank (l : str) :
  is_blank l = false -> lstrip_by isspace l <> [].
Proof.
  intros H E. apply lstrip_by_nil_inv in E. apply is_blank_iff in E. congruence.
Qed.

Lemma rstrip_nonblank (l : str) :
  is_blank l = false -> rstrip_by isspace l <> [].
Proof.
  intros H E. apply rstrip_by_nil_inv in E. apply is_blank_iff in E. congruence.
Qed.

Lemma is_blank_lstrip (l : str) :
  is_blank l = false -> is_blank (lstrip_by isspace l) = false.
Proof.
  intros H. destruct (is_blank (lstrip_by isspace l)) eqn:E; [|reflexivity].
  apply is_blank_iff in E. exfalso.
  apply (lstrip_nonblank l H).
  clear H. induction l as [|c l IH]; simpl in *; [reflexivity|].
  destruct (isspace c) eqn:Ec; [now apply IH|].
  inversion E; congruence.
Qed.

Lemma is_blank_rstrip (l : str) :
  is_blank l = false -> is_blank (rstrip_by isspace l) = false.
Proof.
  intros H. destruct (is_blank (rstrip_by isspace l)) eqn:E; [|reflexivity].
  apply is_blank_iff in E. exfalso.
  pose proof (rstrip_nonblank l H) as Hne.
  destruct (rstrip_by isspace l) as [|a r] eqn:R using rev_ind; [congruence|].
  pose proof (rstrip_by_last isspace l _ _ R) as Hlast.
  apply Forall_app in E as [_ E]. inversion E; congruence.
Qed.

(** *** The loop of lines 204-210 *)

Lemma collapse_blank_guarded (prev_blank : bool) (lines : list str) :
  match collapse_blank prev_blank lines with
  | [] => true
  | a :: _ => negb (prev_blank && is_blank a)
  end && no_double_blank (collapse_blank prev_blank lines) = true.
Proof.
  revert prev_blank. induction lines as [|l rest IH]; intros pb; [reflexivity|].
  simpl collapse_blank. destruct (is_blank l) eqn:Bl, pb; simpl negb; cbv iota.
  - apply IH.
  - specialize (IH true). simpl.
    destruct (collapse_blank true rest) as [|b r]; [reflexivity|].
    rewrite Bl. simpl in IH |- *. exact IH.
  - specialize (IH false). simpl.
    destruct (collapse_blank false rest) as [|b r]; [now rewrite Bl|].
    rewrite Bl. simpl in IH |- *. exact IH.
  - specialize (IH false). simpl.
    destruct (collapse_blank false rest) as [|b r]; [reflexivity|].
    rewrite Bl. simpl in IH |- *. exact IH.
Qed.

Lemma collapse_blank_no_double (prev_blank : bool) (lines : list str) :
  no_double_blank (collapse_blank prev_blank lines) = true.
Proof.
  pose proof (collapse_blank_guarded prev_blank lines) as H.
  apply andb_true_iff in H. tauto.
Qed.

(** The lines that are not blank all pass, in order. *)
Lemma collapse_blank_nonblank (prev_blank : bool) (lines : list str) :
  List.filter nonblank (collapse_blank prev_blank lines)
  = List.filter nonblank lines.
Proof.
  revert prev_blank. induction lines as [|l rest IH]; intros pb; [reflexivity|].
  simpl. unfold nonblank at 2.
  destruct (is_blank l) eqn:Bl, pb; simpl; unfold nonblank at 1;
    rewrite ?Bl; simpl; now rewrite IH.
Qed.

(** A blank line directly after a blank line is dropped. *)
Lemma collapse_blank_drops (prev_blank : bool) (a : list str) (b1 b2 : str)
  (c : list str) :
  is_blank b1 = true -> is_blank b2 = true ->
  collapse_blank prev_blank (a ++ b1 :: b2 :: c)
  = collapse_blank prev_blank (a ++ b1 :: c).
Proof.
  intros H1 H2. revert prev_blank.
  induction a as [|l a IH]; intros pb; simpl.
  - rewrite H1, H2. destruct pb; reflexivity.
  - destruct (negb (is_blank l && pb)); now rewrite IH.
Qed.

(** A line is kept unless it is blank and the line before it was. *)
Lemma collapse_blank_keeps (prev_blank : bool) (a : list str) (l : str) :
  is_blank l = false ->
  exists kept, collapse_blank prev_blank (a ++ [l]) = kept ++ [l].
Proof.
  intros Hl. revert prev_blank. induction a as [|x a IH]; intros pb; simpl.
  - rewrite Hl. exists []. reflexivity.
  - destruct (IH (is_blank x)) as [kept E]. rewrite E.
    destruct (negb (is_blank x && pb)).
    + exists (x :: kept). reflexivity.
    + exists kept. reflexivity.
Qed.

Lemma collapse_blank_Forall (P : str -> Prop) (prev_blank : bool)
  (lines : list str) :
  Forall P lines -> Forall P (collapse_blank prev_blank lines).
Proof.
  intros H. revert prev_blank.
  induction H as [|l rest Hl Hrest IH]; intros pb; simpl; [constructor|].
  destruct (negb _); [constructor|]; auto.
Qed.

(** *** Splitting and joining lines *)

Lemma split_on_aux_nosep (sep : char) (a cur : str) :
  Forall (fun c => c <> sep) a ->
  split_on_aux sep cur a = [rev cur ++ a].
Proof.
  intros H. revert cur. induction H as [|c a Hc Ha IH]; intros cur; simpl.
  - now rewrite app_nil_r.
  - destruct (N.eqb_spec c sep); [contradiction|].
    rewrite IH. simpl. now rewrite <- app_assoc.
Qed.

Lemma split_on_aux_app (sep : char) (a b cur : str) :
  Forall (fun c => c <> sep) a ->
  split_on_aux sep cur (a ++ sep :: b)
  = (rev cur ++ a) :: split_on_aux sep [] b.
Proof.
  intros H. revert cur. induction H as [|c a Hc Ha IH]; intros cur; simpl.
  - rewrite N.eqb_refl. now rewrite app_nil_r.
  - destruct (N.eqb_spec c sep); [contradiction|].
    rewrite IH. simpl. now rewrite <- app_assoc.
Qed.

Lemma split_on_join (sep : char) (lines : list str) :
  lines <> [] ->
  Forall (Forall (fun c => c <> sep)) lines ->
  split_on sep (join [sep] lines) = lines.
Proof.
  intros Hne H. unfold split_on. revert Hne.
  induction H as [|l rest Hl Hrest IH]; intros Hne; [now destruct Hne|].
  destruct rest as [|l2 rest].
  - simpl. now rewrite split_on_aux_nosep.
  - change (join [sep] (l :: l2 :: rest))
      with (l ++ sep :: join [sep] (l2 :: rest)).
    rewrite split_on_aux_app by assumption. simpl rev. simpl app at 1.
    f_equal. apply IH. discriminate.
Qed.

Lemma split_on_aux_nosep_lines (sep : char) (s cur : str) :
  Forall (fun c => c <> sep) cur ->
  Forall (Forall (fun c => c <> sep)) (split_on_aux sep cur s).
Proof.
  revert cur. induction s as [|c s IH]; intros cur Hcur; simpl.
  - constructor; [now apply Forall_rev | constructor].
  - destruct (N.eqb_spec c sep).
    + constructor; [now apply Forall_rev | apply IH; constructor].
    + apply IH. now constructor.
Qed.

Lemma split_on_no_nl (s : str) : Forall no_nl (split_on ch_nl s).
Proof. apply split_on_aux_nosep_lines. constructor. Qed.

(** *** Stripping the joined text, line by line *)

Fixpoint lstrip_lines (lines : list str) : list str :=
  match lines with
  | [] => []
  | l :: rest =>
      if is_blank l then lstrip_lines rest
      else lstrip_by isspace l :: rest
  end.

Fixpoint rstrip_lines (lines : list str) : list str :=
  match lines with
  | [] => []
  | l :: rest =>
      match rstrip_lines rest with
      | [] => if is_blank l then [] else [rstrip_by isspace l]
      | r => l :: r
      end
  end.

Lemma lstrip_join (lines : list str) :
  lstrip_by isspace (join [ch_nl] lines) = join [ch_nl] (lstrip_lines lines).
Proof.
  induction lines as [|l rest IH]; [reflexivity|].
  destruct rest as [|l2 rest].
  - simpl. destruct (is_blank l) eqn:Bl; [|reflexivity].
    apply lstrip_by_all. now apply is_blank_iff.
  - change (join [ch_nl] (l :: l2 :: rest))
      with (l ++ ch_nl :: join [ch_nl] (l2 :: rest)).
    simpl lstrip_lines. destruct (is_blank l) eqn:Bl.
    + rewrite lstrip_by_app_all by now apply is_blank_iff.
      simpl lstrip_by at 1. exact IH.
    + rewrite lstrip_by_app_some by now apply lstrip_nonblank. reflexivity.
Qed.

Lemma rstrip_lines_join_nonempty (lines : list str) :
  rstrip_lines lines <> [] -> join [ch_nl] (rstrip_lines lines) <> [].
Proof.
  induction lines as [|l rest IH]; [intros H; now destruct H|].
  simpl. destruct (rstrip_lines rest) as [|y ys].
  - destruct (is_blank l) eqn:Bl; [intros H; now destruct H|].
    intros _. simpl. now apply rstrip_nonblank.
  - intros _ E. change (l ++ ch_nl :: join [ch_nl] (y :: ys) = []) in E.
    destruct l; discriminate.
Qed.

Lemma rstrip_join (lines : list str) :
  rstrip_by isspace (join [ch_nl] lines) = join [ch_nl] (rstrip_lines lines).
Proof.
  induction lines as [|l rest IH]; [reflexivity|].
  destruct rest as [|l2 rest].
  - simpl. destruct (is_blank l) eqn:Bl; [|reflexivity].
    apply rstrip_by_all. now apply is_blank_iff.
  - change (join [ch_nl] (l :: l2 :: rest))
      with (l ++ ch_nl :: join [ch_nl] (l2 :: rest)).
    rewrite rstrip_by_app.
    change (rstrip_by isspace (ch_nl :: join [ch_nl] (l2 :: rest)))
      with (match rstrip_by isspace (join [ch_nl] (l2 :: rest)) with
            | [] => []
            | r => ch_nl :: r
            end).
    rewrite IH.
    pose proof (rstrip_lines_join_nonempty (l2 :: rest)) as Hne.
    change (rstrip_lines (l :: l2 :: rest))
      with (match rstrip_lines (l2 :: rest) with
            | [] => if is_blank l then [] else [rstrip_by isspace l]
            | r => l :: r
            end).
    destruct (rstrip_lines (l2 :: rest)) as [|y ys].
    + simpl. destruct (is_blank l) eqn:Bl; [|reflexivity].
      apply rstrip_by_all. now apply is_blank_iff.
    + destruct (join [ch_nl] (y :: ys)) as [|c j] eqn:J.
      * exfalso. now apply Hne.
      * change (join [ch_nl] (l :: y :: ys))
          with (l ++ ch_nl :: join [ch_nl] (y :: ys)).
        now rewrite J.
Qed.

Lemma strip_join (lines : list str) :
  strip (join [ch_nl] lines)
  = join [ch_nl] (rstrip_lines (lstrip_lines lines)).
Proof. unfold strip. now rewrite lstrip_join, rstrip_join. Qed.

Lemma no_double_blank_tail (l : str) (rest : list str) :
  no_double_blank (l :: rest) = true -> no_double_blank rest = true.
Proof.
  destruct rest as [|b rest]; [reflexivity|]. simpl.
  intros H. apply andb_true_iff in H. tauto.
Qed.

Lemma lstrip_lines_no_double (lines : list str) :
  no_double_blank lines = true -> no_double_blank (lstrip_lines lines) = true.
Proof.
  induction lines as [|l rest IH]; [reflexivity|]. intros H. simpl.
  destruct (is_blank l) eqn:Bl.
  - apply IH. now apply no_double_blank_tail in H.
  - destruct rest as [|b rest]; [reflexivity|].
    simpl in H |- *. rewrite Bl in H. rewrite is_blank_lstrip by assumption.
    exact H.
Qed.

Lemma rstrip_lines_head (lines : list str) (y : str) (ys : list str) :
  rstrip_lines lines = y :: ys ->
  exists y0 rest, lines = y0 :: rest /\ is_blank y = is_blank y0.
Proof.
  destruct lines as [|l rest]; [discriminate|]. simpl.
  destruct (rstrip_lines rest) as [|z zs].
  - destruct (is_blank l) eqn:Bl; [discriminate|].
    intros H. injection H as <- _. exists l, rest. split; [reflexivity|].
    rewrite Bl. now apply is_blank_rstrip.
  - intros H. injection H as <- _. exists l, rest. auto.
Qed.

Lemma rstrip_lines_no_double (lines : list str) :
  no_double_blank lines = true -> no_double_blank (rstrip_lines lines) = true.
Proof.
  induction lines as [|l rest IH]; [reflexivity|]. intros H.
  pose proof (no_double_blank_tail _ _ H) as Ht. specialize (IH Ht).
  simpl. destruct (rstrip_lines rest) as [|y ys] eqn:R.
  - destruct (is_blank l); reflexivity.
  - destruct (rstrip_lines_head _ _ _ R) as (y0 & rest' & -> & Hy).
    change (negb (is_blank l && is_blank y) && no_double_blank (y :: ys) = true).
    rewrite IH, Hy. simpl in H. apply andb_true_iff in H as [H _].
    now rewrite H.
Qed.

Lemma lstrip_lines_Forall (P : str -> Prop) (lines : list str) :
  (forall l, P l -> P (lstrip_by isspace l)) ->
  Forall P lines -> Forall P (lstrip_lines lines).
Proof.
  intros HP. induction 1 as [|l rest Hl Hrest IH]; simpl; [constructor|].
  destruct (is_blank l); [assumption|]. constructor; auto.
Qed.

Lemma rstrip_lines_Forall (P : str -> Prop) (lines : list str) :
  (forall l, P l -> P (rstrip_by isspace l)) ->
  Forall P lines -> Forall P (rstrip_lines lines).
Proof.
  intros HP. induction 1 as [|l rest Hl Hrest IH]; simpl; [constructor|].
  destruct (rstrip_lines rest).
  - destruct (is_blank l); repeat constructor. auto.
  - now constructor.
Qed.

(** The lines of the stripped text inherit the absence of doubled blank
    lines. *)
Lemma strip_join_no_double (lines : list str) :
  Forall no_nl lines ->
  no_double_blank lines = true ->
  no_double_blank (split_on ch_nl (strip (join [ch_nl] lines))) = true.
Proof.
  intros Hnl Hnd. rewrite strip_join.
  set (L := rstrip_lines (lstrip_lines lines)).
  assert (HL : no_double_blank L = true)
    by now apply rstrip_lines_no_double, lstrip_lines_no_double.
  assert (HnlL : Forall no_nl L).
  { apply rstrip_lines_Forall; [intros l; apply rstrip_by_Forall|].
    apply lstrip_lines_Forall; [intros l; apply lstrip_by_Forall|].
    assumption. }
  destruct L as [|x xs] eqn:E; [reflexivity|].
  rewrite split_on_join; [assumption | discriminate | assumption].
Qed.

Lemma drop_title_lines_suffix (metadata : list (str * str))
  (lines kept : list str) :
  drop_title_lines metadata lines = Ret kept ->
  exists dropped, lines = dropped ++ kept.
Proof.
  induction lines as [|l rest IH]; simpl.
  - intros H. injection H as <-. now exists [].
  - destruct (str_eqb (strip l) []).
    + intros H. destruct (IH H) as [d ->]. now exists (l :: d).
    + destruct (metadata_title metadata) as [t| |]; simpl; try discriminate.
      destruct (_ || _).
      * intros H. destruct (IH H) as [d ->]. now exists (l :: d).
      * intros H. injection H as <-. now exists [].
Qed.

End LinesFacts.

Import LinesFacts.

(** C7: wherever the transformer produces a body, it is the stripped
    join of the lines kept by the loop of lines 204-210; the lines that
    are not blank all pass that loop unchanged and in order, no blank
    line is kept directly after a blank line, and the lines of the body
    itself contain no two consecutive blank lines. *)
Theorem transformed_body_no_double_blank
  (metadata : list (str * str)) (markdown_content body : str) :
  transformed_body metadata markdown_content = Ret body ->
  exists content_lines,
    drop_title_lines metadata (split_on ch_nl markdown_content)
    = Ret content_lines
    /\ body = strip (join [ch_nl] (collapse_blank false content_lines))
    /\ List.filter nonblank (collapse_blank false content_lines)
       = List.filter nonblank content_lines
    /\ no_double_blank (collapse_blank false content_lines) = true
    /\ no_double_blank (split_on ch_nl body) = true.
Proof.
  unfold transformed_body.
  destruct (drop_title_lines metadata (split_on ch_nl markdown_content))
    as [content_lines| |] eqn:D; simpl; try discriminate.
  intros H. injection H as <-. exists content_lines.
  split; [reflexivity|]. split; [reflexivity|].
  split; [apply collapse_blank_nonblank|].
  split; [apply collapse_blank_no_double|].
  apply strip_join_no_double.
  - apply collapse_blank_Forall.
    destruct (drop_title_lines_suffix _ _ _ D) as [dropped E].
    pose proof (split_on_no_nl markdown_content) as H.
    rewrite E in H. now apply Forall_app in H.
  - apply collapse_blank_no_double.
Qed.

(** Witness of C7: a body with a run of four blank lines. *)
Lemma transformed_body_no_double_blank_witness :
  let metadata := [(lit "title", lit "T")] in
  let markdown := lit "T" ++ [10; 10] ++ lit "a" ++ [10; 10; 32; 10; 10]
                  ++ lit "b" in
  let body := lit "a" ++ [10; 10] ++ lit "b" in
  transformed_body metadata markdown = Ret body
  /\ no_double_blank (split_on ch_nl body) = true.
Proof.
  cbv zeta. split; [reflexivity|].
  destruct (transformed_body_no_double_blank
              [(lit "title", lit "T")]
              (lit "T" ++ [10; 10] ++ lit "a" ++ [10; 10; 32; 10; 10] ++ lit "b")
              (lit "a" ++ [10; 10] ++ lit "b") eq_refl)
    as (content_lines & _ & _ & _ & _ & H).
  exact H.
Defined.

(** The leading lines the specification says are dropped: blank lines,
    the title, and level-1 headings that start with the title (all
    compared after stripping the line). *)
Definition is_title_line (title line : str) : bool :=
  is_blank line
  || startswith (strip line) (lit "# " ++ title)
  || str_eqb (strip line) title.

Fixpoint drop_leading (p : str -> bool) (lines : list str) : list str :=
  match lines with
  | [] => []
  | l :: rest => if p l then drop_leading p rest else lines
  end.

Module TitleFacts.

Lemma startswith_refl (s : str) : startswith s s = true.
Proof. induction s as [|c s IH]; simpl; [reflexivity|]. now rewrite N.eqb_refl. Qed.

Lemma drop_leading_head (p : str -> bool) (lines : list str) (l : str)
  (rest : list str) :
  drop_leading p lines = l :: rest -> p l = false.
Proof.
  induction lines as [|x lines IH]; simpl; [discriminate|].
  destruct (p x) eqn:E; [exact IH|]. intros H. injection H as -> _. exact E.
Qed.

Lemma split_on_cons_line (line rest : str) :
  no_nl line ->
  split_on ch_nl (line ++ ch_nl :: rest) = line :: split_on ch_nl rest.
Proof. intros H. unfold split_on. now rewrite split_on_aux_app. Qed.

Lemma split_on_single_line (line : str) :
  no_nl line -> split_on ch_nl line = [line].
Proof. intros H. unfold split_on. now rewrite split_on_aux_nosep. Qed.

(** A heading made of a stripped, non-empty title strips to itself. *)
Lemma strip_heading (title : str) :
  title <> [] -> strip title = title ->
  strip (lit "# " ++ title) = lit "# " ++ title.
Proof.
  intros Hne Hs.
  assert (Hr : rstrip_by isspace title = title).
  { unfold strip in Hs. destruct title as [|c t]; [congruence|].
    simpl in Hs. destruct (isspace c) eqn:E; [|exact Hs].
    exfalso.
    pose proof (rstrip_by_length isspace (lstrip_by isspace t)) as H1.
    pose proof (lstrip_by_length isspace t) as H2.
    rewrite Hs in H1. simpl in H1. lia. }
  unfold strip.
  replace (lstrip_by isspace (lit "# " ++ title)) with ([ch_hash; ch_space] ++ title)
    by reflexivity.
  rewrite rstrip_by_app, Hr.
  destruct title; [congruence | reflexivity].
Qed.

Lemma normalize_ws_no_nl (s : str) : no_nl (normalize_ws s).
Proof.
  eapply Forall_impl; [|apply normalize_ws_spaces].
  intros c [H | ->] E; subst; discriminate.
Qed.

(** The words of a normalised string are joined by single spaces, so
    stripping finds nothing to remove. *)
Lemma join_words_strip (ws : list str) :
  Forall (fun w => w <> [] /\ Forall (fun c => isspace c = false) w) ws ->
  strip (join [ch_space] ws) = join [ch_space] ws.
Proof.
  intros H. unfold strip.
  assert (Hl : lstrip_by isspace (join [ch_space] ws) = join [ch_space] ws).
  { destruct H as [|w ws [Hw1 Hw2] _]; [reflexivity|].
    destruct w as [|c w]; [congruence|].
    assert (Hc : isspace c = false) by now inversion Hw2.
    destruct ws; simpl; now rewrite Hc. }
  rewrite Hl. clear Hl.
  induction H as [|w ws [Hw1 Hw2] Hws IH]; [reflexivity|].
  destruct ws as [|w2 ws].
  - simpl. now apply rstrip_by_id_Forall.
  - change (join [ch_space] (w :: w2 :: ws))
      with (w ++ ch_space :: join [ch_space] (w2 :: ws)).
    rewrite rstrip_by_app.
    change (rstrip_by isspace (ch_space :: join [ch_space] (w2 :: ws)))
      with (match rstrip_by isspace (join [ch_space] (w2 :: ws)) with
            | [] => []
            | r => ch_space :: r
            end).
    rewrite IH.
    destruct (join [ch_space] (w2 :: ws)) eqn:J; [|reflexivity].
    exfalso. inversion Hws as [|? ? [Hne _] _]; subst.
    destruct w2; [congruence|]. destruct ws; discriminate.
Qed.

Lemma split_ws_aux_words (s cur : str) :
  Forall (fun c => isspace c = false) cur ->
  Forall (fun w => w <> [] /\ Forall (fun c => isspace c = false) w)
         (split_ws_aux cur s).
Proof.
  revert cur. induction s as [|c s IH]; intros cur Hcur; simpl.
  - destruct cur as [|a cur]; [constructor|].
    constructor; [|constructor]. split; [|now apply Forall_rev].
    simpl. destruct (rev cur); discriminate.
  - destruct (isspace c) eqn:E.
    + destruct cur as [|a cur]; [now apply IH|].
      constructor; [|apply IH; constructor].
      split; [|now apply Forall_rev]. simpl. destruct (rev cur); discriminate.
    + apply IH. now constructor.
Qed.

Lemma normalize_ws_stripped (s : str) :
  strip (normalize_ws s) = normalize_ws s.
Proof. apply join_words_strip, split_ws_aux_words. constructor. Qed.

(** The title of lines 164-165 is stripped and on one line. *)
Lemma article_title_normalised (article_data : value) (title : str) :
  article_title article_data = Ret title ->
  strip title = title /\ no_nl title.
Proof.
  unfold article_title.
  destruct (py_get article_data (lit "short_description") VNone)
    as [sd| |]; simpl; try discriminate.
  destruct (if truthy sd then Ret sd
            else py_get article_data (lit "title") (VStr []))
    as [x| |]; simpl; try discriminate.
  destruct (py_strip x) as [t| |]; simpl; try discriminate.
  intros H. injection H as <-.
  split; [apply normalize_ws_stripped | apply normalize_ws_no_nl].
Qed.

End TitleFacts.

Import TitleFacts.

(** C8: with a title in the metadata, the loop of lines 196-201 drops
    the leading lines that are blank, equal to the title, or start with
    the level-1 heading of the title, and stops at the first other line;
    a body that starts with the heading of the title is transformed as
    if the heading line were not there. *)
Theorem drop_title_lines_leading
  (metadata : list (str * str)) (title : str) :
  assoc metadata (lit "title") = Some title ->
  (forall lines,
     drop_title_lines metadata lines
     = Ret (drop_leading (is_title_line title) lines))
  /\ (forall lines l rest,
        drop_title_lines metadata lines = Ret (l :: rest) ->
        is_title_line title l = false)
  /\ (title <> [] -> strip title = title -> no_nl title ->
      (forall rest,
         transformed_body metadata (lit "# " ++ title ++ ch_nl :: rest)
         = transformed_body metadata rest)
      /\ transformed_body metadata (lit "# " ++ title) = Ret []).
Proof.
  intros Ht.
  assert (Hdrop : forall lines,
             drop_title_lines metadata lines
             = Ret (drop_leading (is_title_line title) lines)).
  { induction lines as [|l rest IH]; [reflexivity|].
    simpl. unfold metadata_title. rewrite Ht. simpl.
    unfold is_title_line. rewrite is_blank_eqb.
    destruct (is_blank l); simpl; [exact IH|].
    destruct (_ || _); [exact IH | reflexivity]. }
  split; [exact Hdrop|]. split.
  - intros lines l rest H. rewrite Hdrop in H. injection H as H.
    now apply drop_leading_head in H.
  - intros Hne Hs Hnl.
    assert (Hline : no_nl (lit "# " ++ title)).
    { apply Forall_app. split; [|assumption].
      repeat constructor; discriminate. }
    assert (Hdropped : is_title_line title (lit "# " ++ title) = true).
    { unfold is_title_line. rewrite strip_heading by assumption.
      rewrite startswith_refl. now rewrite orb_true_r. }
    split.
    + intros rest. unfold transformed_body.
      change (lit "# " ++ title ++ ch_nl :: rest)
        with ((lit "# " ++ title) ++ ch_nl :: rest).
      rewrite split_on_cons_line by assumption.
      rewrite !Hdrop. cbn [drop_leading obind]. now rewrite Hdropped.
    + unfold transformed_body.
      rewrite split_on_single_line by assumption.
      rewrite Hdrop. cbn [drop_leading obind]. now rewrite Hdropped.
Qed.

(** Witness of C8: the body of the specification's example. *)
Lemma drop_title_lines_leading_witness :
  let metadata := [(lit "title", lit "Leave Policy")] in
  drop_title_lines metadata
    [lit "# Leave Policy"; []; lit "Leave Policy"; lit "Text"; []]
  = Ret [lit "Text"; []]
  /\ transformed_body metadata
       (lit "# Leave Policy" ++ ch_nl :: lit "Text")
     = Ret (lit "Text").
Proof.
  cbv zeta.
  destruct (drop_title_lines_leading
              [(lit "title", lit "Leave Policy")] (lit "Leave Policy") eq_refl)
    as (Hdrop & _ & Hbody).
  split.
  - rewrite Hdrop. reflexivity.
  - destruct Hbody as [Hbody _].
    + discriminate.
    + reflexivity.
    + repeat constructor; discriminate.
    + change (lit "# Leave Policy" ++ ch_nl :: lit "Text")
        with (lit "# " ++ lit "Leave Policy" ++ ch_nl :: lit "Text").
      rewrite Hbody. reflexivity.
Defined.

(** ** The metadata composer *)

(** The keys of the frontmatter, in the order of lines 173-182. *)
Definition field_order : list str :=
  [ lit "title"; lit "author"; lit "author_sys_id"; lit "created_date";
    lit "updated_date"; lit "views"; lit "rating"; lit "knowledge_base";
    lit "category"; lit "sys_id" ].

(** The document of lines 213-221. *)
Definition document (frontmatter : list str) (title body : str) : str :=
  join [ch_nl] [ join [ch_nl] frontmatter; []; lit "# " ++ title; []; body ].

Module ComposerFacts.

Lemma assoc_notin {A : Type} (d : list (str * A)) (k : str) :
  ~ In k (List.map fst d) -> assoc d k = None.
Proof.
  induction d as [|[k' v] d IH]; simpl; [reflexivity|].
  intros H. destruct (str_eqb k' k) eqn:E.
  - apply str_eqb_eq in E. exfalso. apply H. now left.
  - apply IH. intros Hin. apply H. now right.
Qed.

(** Filtering a dictionary by value keeps the binding of a key exactly
    when its value passes. *)
Lemma assoc_filter {A : Type} (f : A -> bool) (d : list (str * A)) (k : str) :
  NoDup (List.map fst d) ->
  assoc (List.filter (fun kv => f (snd kv)) d) k
  = match assoc d k with
    | Some v => if f v then Some v else None
    | None => None
    end.
Proof.
  induction d as [|[k' v] d IH]; simpl; [reflexivity|].
  intros Hnd. inversion Hnd as [|? ? Hk Hd]; subst.
  destruct (str_eqb k' k) eqn:E.
  - apply str_eqb_eq in E. subst k'. destruct (f v) eqn:Fv; simpl.
    + now rewrite str_eqb_refl.
    + rewrite IH by assumption. now rewrite (assoc_notin d k).
  - destruct (f v); simpl; [rewrite E|]; now apply IH.
Qed.

Lemma assoc_map {A B : Type} (g : A -> B) (d : list (str * A)) (k : str) :
  assoc (List.map (fun kv => (fst kv, g (snd kv))) d) k
  = option_map g (assoc d k).
Proof.
  induction d as [|[k' v] d IH]; simpl; [reflexivity|].
  destruct (str_eqb k' k); [reflexivity | exact IH].
Qed.

Section Clean.

Variable repr_str : str -> str.

(** The comprehension of line 186, key by key. *)
Lemma clean_metadata_assoc (metadata : list (str * value)) (k : str) :
  NoDup (List.map fst metadata) ->
  assoc (clean_metadata repr_str metadata) k
  = match assoc metadata k with
    | Some v => if truthy v then Some (strip (py_str repr_str v)) else None
    | None => None
    end.
Proof.
  intros Hnd. unfold clean_metadata.
  rewrite (assoc_map (fun v => strip (py_str repr_str v))).
  rewrite (assoc_filter truthy) by assumption.
  destruct (assoc metadata k) as [v|]; [|reflexivity].
  destruct (truthy v); reflexivity.
Qed.

(** The comprehension keeps the order of the keys. *)
Lemma clean_metadata_keys (metadata : list (str * value)) :
  List.map fst (clean_metadata repr_str metadata)
  = List.map fst (List.filter (fun kv => truthy (snd kv)) metadata).
Proof. unfold clean_metadata. now rewrite map_map. Qed.

End Clean.

Lemma article_metadata_inv (article_data : value) (title : str) (a : author)
  (metadata : list (str * value)) :
  article_metadata article_data title a = Ret metadata ->
  exists d,
    article_data = VDict d
    /\ metadata =
       [ (lit "title", VStr title);
         (lit "author", VStr (name a));
         (lit "author_sys_id", sys_id a);
         (lit "created_date", dict_get d (lit "sys_created_on") (VStr []));
         (lit "updated_date", dict_get d (lit "sys_updated_on") (VStr []));
         (lit "views", dict_get d (lit "view_count") (VInt 0));
         (lit "rating", dict_get d (lit "rating") (VStr []));
         (lit "knowledge_base",
           dict_get d (lit "kb_knowledge_base.title") (VStr []));
         (lit "category", dict_get d (lit "kb_category.label") (VStr []));
         (lit "sys_id", dict_get d (lit "sys_id") (VStr [])) ].
Proof.
  destruct article_data as [| | | | |d]; simpl; try discriminate.
  intros H. injection H as <-. exists d. split; reflexivity.
Qed.

Lemma field_order_nodup : NoDup field_order.
Proof.
  unfold field_order.
  repeat (constructor; [simpl; intuition discriminate|]). constructor.
Qed.

Lemma article_metadata_keys (article_data : value) (title : str) (a : author)
  (metadata : list (str * value)) :
  article_metadata article_data title a = Ret metadata ->
  List.map fst metadata = field_order.
Proof.
  intros H. apply article_metadata_inv in H as (d & _ & ->). reflexivity.
Qed.

Section Format.

Variable repr_str : str -> str.
Variable w : world.

(** What a successful call of [format_article_markdown] went through. *)
Lemma format_article_markdown_inv (article_data : value)
  (markdown_content file_path doc : str) (tr tr' : trace) :
  format_article_markdown repr_str w article_data markdown_content file_path tr
  = (Ret doc, tr') ->
  exists title author_ref author_sys_id a metadata body,
    article_title article_data = Ret title
    /\ py_get article_data (lit "author") (VDict []) = Ret author_ref
    /\ py_get author_ref (lit "value") (VStr []) = Ret author_sys_id
    /\ get_user_details repr_str w author_sys_id tr = (Ret a, tr')
    /\ article_metadata article_data title a = Ret metadata
    /\ transformed_body (clean_metadata repr_str metadata) markdown_content
       = Ret body
    /\ metadata_title (clean_metadata repr_str metadata) = Ret title
    /\ title <> []
    /\ doc = document (frontmatter_lines (clean_metadata repr_str metadata))
               title body.
Proof.
  unfold format_article_markdown, bind, lift, ret.
  destruct (article_title article_data) as [title| |] eqn:Ht; try discriminate.
  destruct (py_get article_data (lit "author") (VDict []))
    as [author_ref| |] eqn:Ha; try discriminate.
  destruct (py_get author_ref (lit "value") (VStr []))
    as [author_sys_id| |] eqn:Hv; try discriminate.
  destruct (get_user_details repr_str w author_sys_id tr) as [[a| |] tr1] eqn:Hu;
    try discriminate.
  destruct (article_metadata article_data title a) as [metadata| |] eqn:Hm;
    try discriminate.
  destruct (transformed_body (clean_metadata repr_str metadata) markdown_content)
    as [body| |] eqn:Hb; try discriminate.
  destruct (metadata_title (clean_metadata repr_str metadata))
    as [heading| |] eqn:Hh; try discriminate.
  intros H. injection H as <- <-.
  assert (Hq : heading = title /\ title <> []).
  { unfold metadata_title in Hh.
    rewrite clean_metadata_assoc in Hh
      by (rewrite (article_metadata_keys _ _ _ _ Hm); apply field_order_nodup).
    apply article_metadata_inv in Hm as (d & _ & ->). simpl in Hh.
    unfold article_title in Ht.
    destruct title as [|c t]; simpl in Hh; [discriminate|].
    injection Hh as <-. split; [|discriminate].
    destruct (py_get article_data (lit "short_description") VNone)
      as [sd| |]; simpl in Ht; try discriminate.
    destruct (if truthy sd then Ret sd
              else py_get article_data (lit "title") (VStr []))
      as [x| |]; simpl in Ht; try discriminate.
    destruct (py_strip x) as [s| |]; simpl in Ht; try discriminate.
    injection Ht as Ht. rewrite <- Ht. apply normalize_ws_stripped. }
  destruct Hq as [-> Hne].
  exists title, author_ref, author_sys_id, a, metadata, body.
  repeat split; auto.
Qed.

(** With no title the document cannot be composed: the title is left
    out of the metadata (line 186) and lines 198 and 216 look it up. *)
Lemma format_article_markdown_empty_title (article_data : value)
  (markdown_content file_path : str) (tr : trace) :
  article_title article_data = Ret [] ->
  forall doc,
    fst (format_article_markdown repr_str w article_data markdown_content
           file_path tr) <> Ret doc.
Proof.
  intros Ht doc H.
  destruct (format_article_markdown repr_str w article_data markdown_content
              file_path tr) as [o tr'] eqn:E.
  simpl in H. subst o.
  apply format_article_markdown_inv in E
    as (title & author_ref & author_sys_id & a & metadata & body
        & Ht' & _ & _ & _ & _ & _ & _ & Hne & _).
  congruence.
Qed.

End Format.

End ComposerFacts.

Import ComposerFacts.

(** An article record with an empty [short_description] and no
    [title]. *)
Definition untitled_article : value :=
  VDict [(lit "sys_id", VStr (lit "a1"));
         (lit "short_description", VStr []);
         (lit "text", VStr (lit "<p>Body</p>"))].

(** C4 at an article record with an empty [short_description] and no [title]:
    the title resolves to the empty string, no placeholder is
    substituted, and the composition raises [KeyError('title')]. *)
Theorem format_article_markdown_untitled :
  article_title untitled_article = Ret []
  /\ format_article_markdown (fun s => s) no_users untitled_article
       (lit "Body") (lit "Unnamed-Article-a1.md") []
     = (Raise (KeyError (lit "title")), []).
Proof. split; reflexivity. Qed.

Module FieldFacts.

Lemma keys_filter {A : Type} (f : A -> bool) (d : list (str * A)) :
  NoDup (List.map fst d) ->
  List.map fst (List.filter (fun kv => f (snd kv)) d)
  = List.filter
      (fun k => match assoc d k with Some v => f v | None => false end)
      (List.map fst d).
Proof.
  induction d as [|[k v] d IH]; simpl; [reflexivity|].
  intros Hnd. inversion Hnd as [|? ? Hk Hd]; subst.
  rewrite str_eqb_refl.
  assert (E : List.filter
                (fun k0 => match (if str_eqb k k0 then Some v else assoc d k0)
                           with Some v0 => f v0 | None => false end)
                (List.map fst d)
              = List.filter
                  (fun k0 => match assoc d k0 with
                             | Some v0 => f v0 | None => false end)
                  (List.map fst d)).
  { apply filter_ext_in. intros k0 Hin.
    destruct (str_eqb k k0) eqn:E; [|reflexivity].
    apply str_eqb_eq in E. subst. contradiction. }
  rewrite E. destruct (f v); simpl; now rewrite IH.
Qed.

End FieldFacts.

Import FieldFacts.

(** C6, as the code has it: the frontmatter of a composed document
    holds, in the order title, author, author_sys_id, created_date,
    updated_date, views, rating, knowledge_base, category, sys_id,
    exactly the fields whose source value is truthy, each stringified
    and stripped; the source of views is [view_count] with default the
    integer 0, which is not truthy. *)
Theorem frontmatter_fields (repr_str : str -> str) (w : world)
  (article_data : value) (markdown_content file_path doc : str)
  (tr tr' : trace) :
  format_article_markdown repr_str w article_data markdown_content file_path tr
  = (Ret doc, tr') ->
  exists title a metadata body,
    article_metadata article_data title a = Ret metadata
    /\ List.map fst metadata = field_order
    /\ doc = document (frontmatter_lines (clean_metadata repr_str metadata))
               title body
    /\ List.map fst (clean_metadata repr_str metadata)
       = List.filter
           (fun k => match assoc metadata k with
                     | Some v => truthy v
                     | None => false
                     end)
           field_order
    /\ (forall k,
          assoc (clean_metadata repr_str metadata) k
          = match assoc metadata k with
            | Some v =>
                if truthy v then Some (strip (py_str repr_str v)) else None
            | None => None
            end)
    /\ (forall views,
          py_get article_data (lit "view_count") (VInt 0) = Ret views ->
          assoc metadata (lit "views") = Some views).
Proof.
  intros H.
  apply format_article_markdown_inv in H
    as (title & author_ref & author_sys_id & a & metadata & body
        & _ & _ & _ & _ & Hm & _ & _ & _ & Hdoc).
  pose proof (article_metadata_keys _ _ _ _ Hm) as Hkeys.
  assert (Hnd : NoDup (List.map fst metadata))
    by (rewrite Hkeys; apply field_order_nodup).
  exists title, a, metadata, body.
  split; [assumption|]. split; [assumption|]. split; [assumption|].
  split; [|split].
  - rewrite clean_metadata_keys, (keys_filter truthy) by assumption.
    now rewrite Hkeys.
  - intros k. now apply clean_metadata_assoc.
  - intros views Hv.
    apply article_metadata_inv in Hm as (d & -> & ->).
    simpl in Hv. injection Hv as <-. reflexivity.
Qed.

(** An article record of the instance: a title and the identifier, no
    [view_count]. *)
Definition plain_article : value :=
  VDict [(lit "short_description", VStr (lit "Leave Policy"));
         (lit "sys_id", VStr (lit "a1"))].

(** The same record with the view count as the integer 0 and as the
    string of the digit 0. *)
Definition article_with_views (views : value) : value :=
  VDict [(lit "short_description", VStr (lit "Leave Policy"));
         (lit "sys_id", VStr (lit "a1"));
         (lit "view_count", views)].

(** C6 fails as stated: with [view_count] absent (the default 0) or the
    integer 0, the frontmatter has no views field. *)
Lemma frontmatter_views_zero_omitted :
  format_article_markdown (fun s => s) no_users plain_article
    (lit "Text") (lit "Leave-Policy.md") []
  = (Ret (document
            (frontmatter_lines
               [(lit "title", lit "Leave Policy");
                (lit "author", lit "Unknown");
                (lit "sys_id", lit "a1")])
            (lit "Leave Policy") (lit "Text")),
     [])
  /\ format_article_markdown (fun s => s) no_users
       (article_with_views (VInt 0)) (lit "Text") (lit "Leave-Policy.md") []
     = format_article_markdown (fun s => s) no_users plain_article
         (lit "Text") (lit "Leave-Policy.md") [].
Proof. split; reflexivity. Qed.

(** Witness of C6: the view count as a string is kept. *)
Lemma frontmatter_fields_witness :
  exists title a metadata body,
    article_metadata (article_with_views (VStr (lit "0"))) title a
    = Ret metadata
    /\ assoc (clean_metadata (fun s => s) metadata) (lit "views")
       = Some (lit "0")
    /\ document (frontmatter_lines
                   [(lit "title", lit "Leave Policy");
                    (lit "author", lit "Unknown");
                    (lit "views", lit "0");
                    (lit "sys_id", lit "a1")])
         (lit "Leave Policy") (lit "Text")
       = document (frontmatter_lines (clean_metadata (fun s => s) metadata))
           title body.
Proof.
  destruct (frontmatter_fields (fun s => s) no_users
              (article_with_views (VStr (lit "0")))
              (lit "Text") (lit "Leave-Policy.md")
              (document
                 (frontmatter_lines
                    [(lit "title", lit "Leave Policy");
                     (lit "author", lit "Unknown");
                     (lit "views", lit "0");
                     (lit "sys_id", lit "a1")])
                 (lit "Leave Policy") (lit "Text"))
              [] [] eq_refl)
    as (title & a & metadata & body & Hm & _ & Hdoc & _ & Hassoc & Hviews).
  exists title, a, metadata, body.
  split; [assumption|]. split; [|assumption].
  rewrite Hassoc, (Hviews (VStr (lit "0")) eq_refl). reflexivity.
Defined.

(** ** The export driver *)

(** The events that export an article: the requests for the articles of
    a knowledge base and for one article, and the opening and the
    writing of a file. *)
Definition exports (ev : event) : bool :=
  match ev with
  | EOpen _ => true
  | EWrite _ _ => true
  | ERequest (GetArticles _) => true
  | ERequest (GetArticle _) => true
  | _ => false
  end.

Definition is_dict (v : value) : bool :=
  match v with VDict _ => true | _ => false end.

(** An instance with no knowledge base, on a machine where the output
    folder does not exist yet. *)
Definition empty_instance : world := {|
  http := fun _ _ => Json (VDict [(lit "result", VList [])]);
  path_exists := fun _ _ => false;
  makedirs_fails := fun _ _ => false;
  open_fails := fun _ _ => false;
  write_error := fun _ _ _ => None
|}.

(** An instance with one knowledge base and one category record that
    has a label and no [sys_id]. *)
Definition instance_with_bad_category : world := {|
  http := fun _ r =>
    match r with
    | GetKnowledgeBases =>
        Json (VDict [(lit "result",
                      VList [VDict [(lit "sys_id", VStr (lit "k1"));
                                    (lit "title", VStr (lit "HR"))]])])
    | GetCategories =>
        Json (VDict [(lit "result",
                      VList [VDict [(lit "sys_id", VStr (lit "c1"));
                                    (lit "label", VStr (lit "Policies"))];
                             VDict [(lit "label", VStr (lit "Benefits"))]])])
    | _ => Json (VDict [(lit "result", VList [])])
    end;
  path_exists := fun _ _ => false;
  makedirs_fails := fun _ _ => false;
  open_fails := fun _ _ => false;
  write_error := fun _ _ _ => None
|}.

Definition articles_folder : config :=
  {| output_folder := lit "/export/articles"; selected_kbs := [] |}.

Module DriverFacts.

Lemma for_each_app {A : Type} (body : A -> M unit) (l1 l2 : list A)
  (tr : trace) :
  for_each body (l1 ++ l2) tr
  = bind (for_each body l1) (fun _ => for_each body l2) tr.
Proof.
  revert tr. induction l1 as [|x l1 IH]; intros tr; simpl; [reflexivity|].
  unfold bind in *. destruct (body x tr) as [[[]| |] tr1]; try reflexivity.
  apply IH.
Qed.

Section Categories.

Variable repr_str : str -> str.

(** The comprehension of line 266 raises as soon as one record has no
    [sys_id]. *)
Lemma build_categories_missing (items : list value) (d : list (str * value))
  (categories : list (str * value)) :
  In (VDict d) items -> assoc d (lit "sys_id") = None ->
  exists e,
    build_categories repr_str items categories = Raise e
    /\ (forallb is_dict items = true -> e = KeyError (lit "sys_id")).
Proof.
  intros Hin Hd. revert categories.
  induction items as [|cat rest IH]; intros categories; [contradiction|].
  simpl. destruct Hin as [-> | Hin].
  - simpl. rewrite Hd. simpl. eexists. split; [reflexivity | reflexivity].
  - destruct cat as [| | | | |c]; simpl;
      try (eexists; split; [reflexivity | discriminate]).
    destruct (assoc c (lit "sys_id")) as [x|]; simpl.
    + apply IH. assumption.
    + eexists. split; reflexivity.
Qed.

End Categories.

Section Run.

Variable repr_str : str -> str.
Variable html2text_handle : str -> str.
Variable cfg : config.
Variable w : world.

Lemma create_folder_cases (path : str) (tr : trace) :
  create_folder w path tr
  = (Ret tt, tr ++ (if path_exists w tr path then [] else [EMakedirs path]))
  \/ create_folder w path tr = (Raise OSError, tr).
Proof.
  unfold create_folder. destruct (path_exists w tr path).
  - left. now rewrite app_nil_r.
  - destruct (makedirs_fails w tr path); [right | left]; reflexivity.
Qed.

(** Selecting the knowledge bases prints and does nothing else. *)
Lemma select_knowledge_bases_trace (knowledge_bases : value) (tr tr' : trace)
  (o : outcome (option value)) :
  select_knowledge_bases cfg knowledge_bases tr = (o, tr') ->
  exists ms, tr' = tr ++ List.map EPrint ms.
Proof.
  unfold select_knowledge_bases.
  destruct (selected_kbs cfg) as [|s sel].
  - intros H. injection H as _ <-. exists []. now rewrite app_nil_r.
  - unfold bind, print, emit, lift, ret.
    destruct (py_iter knowledge_bases) as [items| |].
    + destruct (filter_knowledge_bases cfg items) as [kept| |].
      * destruct (negb (truthy (VList kept))); intros H; injection H as _ <-.
        -- exists [MsgFiltering (s :: sel); MsgNoMatchingKnowledgeBases].
           rewrite <- app_assoc. reflexivity.
        -- exists [MsgFiltering (s :: sel)]. reflexivity.
      * intros H; injection H as _ <-.
        exists [MsgFiltering (s :: sel)]. reflexivity.
      * intros H; injection H as _ <-.
        exists [MsgFiltering (s :: sel)]. reflexivity.
    + intros H; injection H as _ <-.
      exists [MsgFiltering (s :: sel)]. reflexivity.
    + intros H; injection H as _ <-.
      exists [MsgFiltering (s :: sel)]. reflexivity.
Qed.

(** The handler of lines 338-340. *)
Definition fatal (e : exn) : M unit :=
  bind (print (MsgUnexpectedError e)) (fun _ => sys_exit 1).

(** [main] up to the category fetch. *)
Lemma main_reaches_export (tr tr1 tr2 : trace)
  (kb_response knowledge_bases selected : value) :
  create_folder w (output_folder cfg) tr = (Ret tt, tr1) ->
  http w (tr1 ++ [EPrint MsgStarting; EPrint MsgFetching]) GetKnowledgeBases
  = Json kb_response ->
  py_get kb_response (lit "result") (VList []) = Ret knowledge_bases ->
  truthy knowledge_bases = true ->
  select_knowledge_bases cfg knowledge_bases
    (tr1 ++ [EPrint MsgStarting; EPrint MsgFetching; ERequest GetKnowledgeBases])
  = (Ret (Some selected), tr2) ->
  main repr_str html2text_handle cfg w tr
  = try_except
      (export_knowledge_bases repr_str html2text_handle cfg w selected)
      except_Exception fatal tr2.
Proof.
  intros Hcf Hkb Hres Htruthy Hsel.
  unfold main, try_except, bind at 1. rewrite Hcf.
  unfold bind at 1. unfold print at 1, emit.
  unfold bind at 1. unfold print at 1, emit.
  unfold bind at 1. unfold make_request at 1.
  rewrite <- !app_assoc. simpl app. rewrite Hkb.
  unfold bind at 1, lift at 1. rewrite Hres, Htruthy.
  change (negb true) with false. cbv iota beta.
  unfold bind at 1. rewrite Hsel. reflexivity.
Qed.

End Run.

End DriverFacts.

Import DriverFacts.

(** C5, as the code has it: when the knowledge-base list comes back
    empty, the run has created the base output folder if it did not
    exist (line 244, before the fetch) and no other directory, has
    written no file, prints the warning and returns, so that the exit
    status is 0. *)
Theorem main_no_knowledge_bases (repr_str html2text_handle : str -> str)
  (cfg : config) (w : world) (tr tr1 : trace)
  (kb_response knowledge_bases : value) :
  create_folder w (output_folder cfg) tr = (Ret tt, tr1) ->
  http w (tr1 ++ [EPrint MsgStarting; EPrint MsgFetching]) GetKnowledgeBases
  = Json kb_response ->
  py_get kb_response (lit "result") (VList []) = Ret knowledge_bases ->
  truthy knowledge_bases = false ->
  main repr_str html2text_handle cfg w tr
  = (Ret tt,
     tr1 ++ [EPrint MsgStarting; EPrint MsgFetching;
             ERequest GetKnowledgeBases; EPrint MsgNoKnowledgeBases])
  /\ exit_status (fst (main repr_str html2text_handle cfg w tr)) = 0%Z
  /\ tr1 = tr ++ (if path_exists w tr (output_folder cfg) then []
                  else [EMakedirs (output_folder cfg)]).
Proof.
  intros Hcf Hkb Hres Hfalsy.
  assert (Hmain : main repr_str html2text_handle cfg w tr
                  = (Ret tt,
                     tr1 ++ [EPrint MsgStarting; EPrint MsgFetching;
                             ERequest GetKnowledgeBases;
                             EPrint MsgNoKnowledgeBases])).
  { unfold main, try_except, bind at 1. rewrite Hcf.
    unfold bind at 1. unfold print at 1, emit.
    unfold bind at 1. unfold print at 1, emit.
    unfold bind at 1. unfold make_request at 1.
    rewrite <- !app_assoc. simpl app. rewrite Hkb.
    unfold bind at 1, lift at 1. rewrite Hres, Hfalsy.
    change (negb false) with true. cbv iota beta.
    unfold print, emit. rewrite <- app_assoc. reflexivity. }
  split; [exact Hmain|]. split; [now rewrite Hmain|].
  destruct (create_folder_cases w (output_folder cfg) tr) as [E | E];
    rewrite E in Hcf; [|discriminate].
  now injection Hcf as <-.
Qed.

(** Witness of C5: an instance without knowledge bases, the output
    folder already present. *)
Lemma main_no_knowledge_bases_witness :
  let w := {| http := fun _ _ => Json (VDict [(lit "result", VList [])]);
              path_exists := fun _ _ => true;
              makedirs_fails := fun _ _ => false;
              open_fails := fun _ _ => false;
              write_error := fun _ _ _ => None |} in
  main (fun s => s) (fun s => s) articles_folder w []
  = (Ret tt,
     [EPrint MsgStarting; EPrint MsgFetching;
      ERequest GetKnowledgeBases; EPrint MsgNoKnowledgeBases]).
Proof.
  cbv zeta.
  apply (main_no_knowledge_bases (fun s => s) (fun s => s) articles_folder
           {| http := fun _ _ => Json (VDict [(lit "result", VList [])]);
              path_exists := fun _ _ => true;
              makedirs_fails := fun _ _ => false;
              open_fails := fun _ _ => false;
              write_error := fun _ _ _ => None |}
           [] [] (VDict [(lit "result", VList [])]) (VList []));
    reflexivity.
Defined.

(** C5 fails as stated: where the output folder does not exist, the run
    creates it before it learns that there is no knowledge base. *)
Lemma main_no_knowledge_bases_creates_folder :
  main (fun s => s) (fun s => s) articles_folder empty_instance []
  = (Ret tt,
     [EMakedirs (lit "/export/articles");
      EPrint MsgStarting; EPrint MsgFetching;
      ERequest GetKnowledgeBases; EPrint MsgNoKnowledgeBases])
  /\ ~ (forall path,
          ~ In (EMakedirs path)
               (snd (main (fun s => s) (fun s => s) articles_folder
                       empty_instance []))).
Proof.
  split; [reflexivity|].
  intros H. apply (H (lit "/export/articles")). left. reflexivity.
Qed.

(** C9, as the code has it: an article record whose [sys_id] is absent
    or empty is skipped at line 295 without a request, a file or a
    printed line, and the article loop runs as if the record were not in
    the list, so the remaining articles and knowledge bases are
    processed. *)
Theorem article_without_sys_id_skipped (repr_str html2text_handle : str -> str)
  (w : world) (categories : list (str * value)) (kb_folder kb_title : str)
  (article article_id : value) :
  py_get article (lit "sys_id") VNone = Ret article_id ->
  truthy article_id = false ->
  (forall tr,
     process_article repr_str html2text_handle w categories kb_folder kb_title
       article tr = (Ret tt, tr))
  /\ (forall before after tr,
        for_each
          (process_article repr_str html2text_handle w categories kb_folder
             kb_title)
          (before ++ article :: after) tr
        = for_each
            (process_article repr_str html2text_handle w categories kb_folder
               kb_title)
            (before ++ after) tr).
Proof.
  intros Hid Hfalsy.
  assert (Hskip : forall tr,
             process_article repr_str html2text_handle w categories kb_folder
               kb_title article tr = (Ret tt, tr)).
  { intros tr. unfold process_article, try_except, bind at 1, lift at 1.
    rewrite Hid, Hfalsy. reflexivity. }
  split; [exact Hskip|].
  intros before after tr. rewrite !for_each_app. unfold bind.
  destruct (for_each _ before tr) as [[[]| |] tr1]; try reflexivity.
  simpl for_each. unfold bind. now rewrite Hskip.
Qed.

(** Witness of C9: a record with a title and no [sys_id], between two
    records of an empty list of categories. *)
Lemma article_without_sys_id_skipped_witness :
  let body := process_article (fun s => s) (fun s => s) empty_instance []
                (lit "/export/articles/HR") (lit "HR") in
  let record := VDict [(lit "title", VStr (lit "Draft"))] in
  body record [] = (Ret tt, [])
  /\ for_each body [record; record] [] = for_each body [record] [].
Proof.
  cbv zeta.
  destruct (article_without_sys_id_skipped (fun s => s) (fun s => s)
              empty_instance [] (lit "/export/articles/HR") (lit "HR")
              (VDict [(lit "title", VStr (lit "Draft"))]) VNone
              eq_refl eq_refl) as [Hskip Hloop].
  split; [apply Hskip | apply (Hloop [VDict [(lit "title", VStr (lit "Draft"))]] [])].
Defined.

(** C9 fails as stated: nothing is printed for the skipped record. *)
Lemma article_without_sys_id_not_logged :
  ~ exists m,
      In (EPrint m)
         (snd (process_article (fun s => s) (fun s => s) empty_instance []
                 (lit "/export/articles/HR") (lit "HR")
                 (VDict [(lit "title", VStr (lit "Draft"))]) [])).
Proof. intros [m H]. exact H. Qed.

(** C10: when the run reaches the category fetch and one of the records
    that come back has no [sys_id], building the lookup raises, no
    per-record handler is around it, and the handler of lines 338-340
    prints the diagnostic and exits with status 1; nothing of any
    article has been requested or written by then. *)
Theorem category_without_sys_id_aborts (repr_str html2text_handle : str -> str)
  (cfg : config) (w : world) (tr tr1 tr2 : trace)
  (kb_response knowledge_bases selected cat_response : value)
  (cats : list value) (d : list (str * value)) :
  create_folder w (output_folder cfg) tr = (Ret tt, tr1) ->
  http w (tr1 ++ [EPrint MsgStarting; EPrint MsgFetching]) GetKnowledgeBases
  = Json kb_response ->
  py_get kb_response (lit "result") (VList []) = Ret knowledge_bases ->
  truthy knowledge_bases = true ->
  select_knowledge_bases cfg knowledge_bases
    (tr1 ++ [EPrint MsgStarting; EPrint MsgFetching; ERequest GetKnowledgeBases])
  = (Ret (Some selected), tr2) ->
  http w tr2 GetCategories = Json cat_response ->
  py_get cat_response (lit "result") (VList []) = Ret (VList cats) ->
  In (VDict d) cats ->
  assoc d (lit "sys_id") = None ->
  exists e events,
    main repr_str html2text_handle cfg w tr
    = (Exit 1, tr ++ events ++ [EPrint (MsgUnexpectedError e)])
    /\ exit_status (fst (main repr_str html2text_handle cfg w tr)) = 1%Z
    /\ existsb exports events = false
    /\ (forallb is_dict cats = true -> e = KeyError (lit "sys_id")).
Proof.
  intros Hcf Hkb Hres Htruthy Hsel Hcat Hcats Hin Hd.
  destruct (build_categories_missing repr_str cats d [] Hin Hd) as (e & He & Hkey).
  assert (Hmain : main repr_str html2text_handle cfg w tr
                  = (Exit 1,
                     tr2 ++ [ERequest GetCategories;
                             EPrint (MsgUnexpectedError e)])).
  { rewrite (main_reaches_export _ _ _ _ _ _ _ _ _ _ Hcf Hkb Hres Htruthy Hsel).
    unfold try_except, export_knowledge_bases, bind at 1.
    unfold make_request at 1. rewrite Hcat.
    unfold bind at 1, lift at 1. rewrite Hcats.
    unfold bind at 1, lift at 1. simpl py_iter. cbv iota beta.
    unfold bind at 1, lift at 1. rewrite He.
    simpl. unfold fatal, bind, print, emit, sys_exit, lift.
    now rewrite <- app_assoc. }
  destruct (create_folder_cases w (output_folder cfg) tr) as [E | E];
    rewrite E in Hcf; [|discriminate].
  injection Hcf as Htr1.
  destruct (select_knowledge_bases_trace _ _ _ _ _ Hsel) as [ms Htr2].
  exists e.
  exists ((if path_exists w tr (output_folder cfg) then []
           else [EMakedirs (output_folder cfg)])
          ++ [EPrint MsgStarting; EPrint MsgFetching; ERequest GetKnowledgeBases]
          ++ List.map EPrint ms ++ [ERequest GetCategories]).
  split; [|split; [|split]].
  - rewrite Hmain, Htr2, <- Htr1. rewrite <- !app_assoc. reflexivity.
  - now rewrite Hmain.
  - rewrite !existsb_app.
    assert (Hms : existsb exports (List.map EPrint ms) = false).
    { clear. induction ms as [|m ms IH]; [reflexivity | exact IH]. }
    rewrite Hms. destruct (path_exists w tr (output_folder cfg)); reflexivity.
  - exact Hkey.
Qed.

(** Witness of C10: one knowledge base, and a second category record
    without [sys_id]. *)
Lemma category_without_sys_id_aborts_witness :
  exists events,
    main (fun s => s) (fun s => s) articles_folder instance_with_bad_category []
    = (Exit 1,
       events ++ [EPrint (MsgUnexpectedError (KeyError (lit "sys_id")))])
    /\ existsb exports events = false.
Proof.
  destruct (category_without_sys_id_aborts (fun s => s) (fun s => s)
              articles_folder instance_with_bad_category
              [] [EMakedirs (lit "/export/articles")]
              [EMakedirs (lit "/export/articles"); EPrint MsgStarting;
               EPrint MsgFetching; ERequest GetKnowledgeBases]
              (VDict [(lit "result",
                       VList [VDict [(lit "sys_id", VStr (lit "k1"));
                                     (lit "title", VStr (lit "HR"))]])])
              (VList [VDict [(lit "sys_id", VStr (lit "k1"));
                             (lit "title", VStr (lit "HR"))]])
              (VList [VDict [(lit "sys_id", VStr (lit "k1"));
                             (lit "title", VStr (lit "HR"))]])
              (VDict [(lit "result",
                       VList [VDict [(lit "sys_id", VStr (lit "c1"));
                                     (lit "label", VStr (lit "Policies"))];
                              VDict [(lit "label", VStr (lit "Benefits"))]])])
              [VDict [(lit "sys_id", VStr (lit "c1"));
                      (lit "label", VStr (lit "Policies"))];
               VDict [(lit "label", VStr (lit "Benefits"))]]
              [(lit "label", VStr (lit "Benefits"))]
              eq_refl eq_refl eq_refl eq_refl eq_refl eq_refl eq_refl
              (or_intror (or_introl eq_refl)) eq_refl)
    as (e & events & Hmain & _ & Hexports & Hkey).
  exists events. rewrite <- (Hkey eq_refl). split; assumption.
Defined.

(** ** Whole runs *)

Module Runs.

(** An instance with the knowledge base HR, the category Policies and
    one article; [user] is what a user lookup is answered with. *)
Definition instance (article : value) (user : http_result) : world := {|
  http := fun _ r =>
    match r with
    | GetKnowledgeBases =>
        Json (VDict [(lit "result",
                      VList [VDict [(lit "sys_id", VStr (lit "k1"));
                                    (lit "title", VStr (lit "HR"))]])])
    | GetCategories =>
        Json (VDict [(lit "result",
                      VList [VDict [(lit "sys_id", VStr (lit "c1"));
                                    (lit "label", VStr (lit "Policies"))]])])
    | GetArticles _ =>
        Json (VDict [(lit "result",
                      VList [VDict [(lit "sys_id", VStr (lit "a1"))]])])
    | GetArticle _ => Json (VDict [(lit "result", article)])
    | GetUser _ => user
    end;
  path_exists := fun _ _ => false;
  makedirs_fails := fun _ _ => false;
  open_fails := fun _ _ => false;
  write_error := fun _ _ _ => None
|}.

Definition leave_policy (author_ref : value) : value :=
  VDict [(lit "sys_id", VStr (lit "a1"));
         (lit "short_description", VStr (lit "Leave Policy"));
         (lit "kb_category", VStr (lit "c1"));
         (lit "author", author_ref);
         (lit "text", VStr (lit "<p>Leave Policy</p><p>Text</p>"))].

Definition reference (user_sys_id : string) : value :=
  VDict [(lit "link", VStr (lit "https://instance/api/now/table/sys_user"));
         (lit "value", VStr (lit user_sys_id))].


(** What the conversion gives for the two paragraphs of the example. *)
Definition converted (html : str) : str :=
  lit "Leave Policy" ++ [ch_nl; ch_nl] ++ lit "Text" ++ [ch_nl; ch_nl].

Definition written (tr : trace) : list (str * str) :=
  flat_map (fun ev => match ev with
                      | EWrite path content => [(path, content)]
                      | _ => []
                      end) tr.

Definition printed (tr : trace) : list message :=
  flat_map (fun ev => match ev with EPrint m => [m] | _ => [] end) tr.

End Runs.

Import Runs.

(** The examples of the specification for the sanitizer. *)
Example sanitize_filename_examples :
  sanitize_filename [] = lit "unnamed"
  /\ sanitize_filename (lit "A/B:C") = lit "A_B_C"
  /\ sanitize_filename (lit "  Leave   Policy ") = lit "Leave-Policy".
Proof. repeat split. Qed.

(** The end-to-end example of the specification: one file, under the
    folders of the knowledge base and of the category, with the
    duplicate title paragraph stripped from the body. *)
Example export_leave_policy :
  let run := main (fun s => s) converted articles_folder
               (instance (leave_policy (reference "u1"))
                  (Json (user_record "Ada" "Lovelace"))) [] in
  fst run = Ret tt
  /\ written (snd run)
     = [(lit "/export/articles/HR/Policies/Leave-Policy.md",
         document
           (frontmatter_lines
              [(lit "title", lit "Leave Policy");
               (lit "author", lit "Ada Lovelace");
               (lit "author_sys_id", lit "u1");
               (lit "sys_id", lit "a1")])
           (lit "Leave Policy") (lit "Text"))].
Proof. split; reflexivity. Qed.

(** The same run on an instance that answers the author lookup with
    status 404: the process ends with status 1 and no file is written. *)
Example export_aborts_on_user_lookup :
  let run := main (fun s => s) converted articles_folder
               (instance (leave_policy (reference "u1")) (HTTPError 404)) [] in
  fst run = Exit 1
  /\ written (snd run) = []
  /\ List.last (printed (snd run)) MsgStarting = MsgHTTPFailed 404.
Proof. repeat split. Qed.

(** The run on an instance whose article has no title: the file name is
    made from the placeholder of line 304, the composition raises, and
    the article is skipped without a file. *)
Example export_skips_untitled_article :
  let run := main (fun s => s) converted articles_folder
               (instance untitled_article (HTTPError 404)) [] in
  fst run = Ret tt
  /\ written (snd run) = []
  /\ In (MsgArticle (lit "HR") (lit "Unnamed-Article-a1")) (printed (snd run))
  /\ In (MsgSkippingArticle (KeyError (lit "title"))) (printed (snd run)).
Proof.
  cbv zeta. split; [reflexivity|]. split; [reflexivity|].
  split; vm_compute; tauto.
Qed.


(** * The rest of the program *)

(** ** Module-level configuration (lines 38-40)

    [env] is what [os.getenv('SERVICENOW_KNOWLEDGE_BASES')] finds: the
    value of the variable, or nothing. *)
Definition ch_comma : char := 44.

Definition selected_kbs_of_env (env : option str) : list str :=
  let kb_filter := strip (match env with Some s => s | None => [] end) in
  match kb_filter with
  | [] => []
  | _ => List.map strip (split_on ch_comma kb_filter)
  end.

Module StripFacts.

Lemma lstrip_by_head (p : char -> bool) (s : str) (c : char) (r : str) :
  lstrip_by p s = c :: r -> p c = false.
Proof.
  induction s as [|a s IH]; simpl; [discriminate|].
  destruct (p a) eqn:E; [exact IH|]. intros H. now injection H as <- _.
Qed.

Lemma rstrip_by_idem (p : char -> bool) (s : str) :
  rstrip_by p (rstrip_by p s) = rstrip_by p s.
Proof.
  apply rstrip_by_id. intros r c E. now apply rstrip_by_last in E.
Qed.

Lemma rstrip_by_keeps_head (p : char -> bool) (c : char) (s : str) :
  p c = false -> exists r, rstrip_by p (c :: s) = c :: r.
Proof.
  intros Hc. simpl. destruct (rstrip_by p s) as [|x xs].
  - rewrite Hc. now exists [].
  - now exists (x :: xs).
Qed.

(** A stripped string does not start with whitespace. *)
Lemma strip_head (s : str) (c : char) (r : str) :
  strip s = c :: r -> isspace c = false.
Proof.
  unfold strip. destruct (lstrip_by isspace s) as [|a t] eqn:E;
    [discriminate|].
  pose proof (lstrip_by_head _ _ _ _ E) as Ha.
  destruct (rstrip_by_keeps_head isspace a t Ha) as [r' ->].
  intros H. now injection H as <- _.
Qed.

(** A stripped string does not end with whitespace. *)
Lemma strip_last (s r : str) (c : char) :
  strip s = r ++ [c] -> isspace c = false.
Proof. unfold strip. apply rstrip_by_last. Qed.

Lemma strip_idem (s : str) : strip (strip s) = strip s.
Proof.
  destruct (strip s) as [|c r] eqn:E; [reflexivity|].
  pose proof (strip_head _ _ _ E) as Hc.
  unfold strip at 1. simpl lstrip_by. rewrite Hc.
  rewrite <- E. unfold strip. apply rstrip_by_idem.
Qed.

End StripFacts.

Import StripFacts.

Module ConfigFacts.

Lemma split_on_aux_length (sep : char) (s cur : str) :
  List.length (split_on_aux sep cur s) = S (count_occ N.eq_dec s sep).
Proof.
  revert cur. induction s as [|c s IH]; intros cur; simpl; [reflexivity|].
  destruct (N.eqb_spec c sep) as [->|Hne].
  - simpl. rewrite IH. now destruct (N.eq_dec sep sep).
  - rewrite IH. now destruct (N.eq_dec c sep).
Qed.

End ConfigFacts.

Import ConfigFacts.

(** X1: the selection read from the environment is empty exactly when
    the variable is absent or blank; otherwise it has one entry more
    than the stripped value has commas, and every entry is stripped and
    free of commas (an entry may be empty). *)
Theorem selected_kbs_of_env_entries (env : option str) :
  let kb_filter := strip (match env with Some s => s | None => [] end) in
  (selected_kbs_of_env env = [] <-> kb_filter = [])
  /\ (kb_filter <> [] ->
      List.length (selected_kbs_of_env env)
      = S (count_occ N.eq_dec kb_filter ch_comma))
  /\ Forall (fun entry => strip entry = entry /\ ~ In ch_comma entry)
            (selected_kbs_of_env env).
Proof.
  cbv zeta. unfold selected_kbs_of_env.
  destruct (strip (match env with Some s => s | None => [] end))
    as [|c k] eqn:E.
  - split; [tauto|]. split; [congruence | constructor].
  - split; [|split].
    + split; [|discriminate]. intros H.
      apply (f_equal (@List.length str)) in H.
      rewrite length_map in H. unfold split_on in H.
      rewrite split_on_aux_length in H. discriminate.
    + intros _. rewrite length_map. apply split_on_aux_length.
    + rewrite Forall_map.
      eapply Forall_impl;
        [|apply (split_on_aux_nosep_lines ch_comma (c :: k) []); constructor].
      intros entry Hentry. split; [apply strip_idem|].
      apply strip_Forall in Hentry. rewrite Forall_forall in Hentry.
      intros Hin. now apply (Hentry _ Hin).
Qed.

(** Witness of X1: two titles around a comma, with blanks. *)
Lemma selected_kbs_of_env_entries_witness :
  selected_kbs_of_env (Some (lit " HR , IT ")) = [lit "HR"; lit "IT"]
  /\ List.length (selected_kbs_of_env (Some (lit " HR , IT "))) = 2%nat.
Proof.
  split; [reflexivity|].
  destruct (selected_kbs_of_env_entries (Some (lit " HR , IT ")))
    as (_ & Hlen & _).
  rewrite Hlen; [reflexivity | discriminate].
Defined.

(** ** More on the filename sanitizer *)

Module SanitizeMore.

(** The characters of a sanitized name: those of the input, the
    underscore and the dash. *)
Definition from_input (x : str) (c : char) : Prop :=
  In c x \/ c = ch_underscore \/ c = ch_dash.

Lemma replace_all_origin (x : char) :
  replace_all invalid_chars ch_underscore x = x
  \/ replace_all invalid_chars ch_underscore x = ch_underscore.
Proof.
  destruct (replace_all_cases invalid_chars ch_underscore x) as [H | [H _]];
    [right | now left].
  rewrite H. apply replace_all_notin. now apply mem_false.
Qed.

Lemma cleaned_origin (x : str) : Forall (from_input x) (cleaned x).
Proof.
  unfold cleaned.
  set (Q := fun c => from_input x c \/ c = ch_space).
  assert (H : Forall Q
                (replace_char ch_tab ch_space
                   (replace_char ch_nl ch_space
                      (strip
                         (normalize_ws
                            (fold_left
                               (fun f c => replace_char c ch_underscore f)
                               invalid_chars x)))))).
  { repeat (apply replace_char_Forall; [now right|]).
    apply strip_Forall, normalize_ws_Forall; [now right|].
    rewrite fold_replace_char, Forall_map. apply Forall_forall.
    intros c Hc. left.
    destruct (replace_all_origin c) as [-> | ->];
      [now left | right; now left]. }
  unfold replace_char at 1. rewrite Forall_map.
  eapply Forall_impl; [|exact H]. intros c [Hc | ->]; simpl.
  - destruct (N.eqb_spec c ch_space); [right; now right | exact Hc].
  - right. now right.
Qed.

(** The characters the cleaning removes or turns into characters that
    line 104 strips. *)
Definition vanishing (c : char) : Prop :=
  In c invalid_chars \/ isspace c = true \/ c = ch_underscore \/ c = ch_dash.

Lemma cleaned_vanishing (x : str) :
  Forall vanishing x ->
  Forall (fun c => mem c (lit "_-") = true) (cleaned x).
Proof.
  intros Hx. unfold cleaned.
  set (s := normalize_ws _).
  assert (Hs : Forall (fun c => c = ch_underscore \/ c = ch_dash \/ c = ch_space) s).
  { assert (H1 : Forall (fun c => isspace c = true \/ c = ch_underscore
                                  \/ c = ch_dash) s).
    { apply normalize_ws_Forall; [now left|].
      rewrite fold_replace_char, Forall_map.
      eapply Forall_impl; [|exact Hx]. intros c Hc. cbv beta.
      destruct (replace_all_origin c) as [E | E]; rewrite E.
      - destruct Hc as [Hin | [Hsp | Hud]]; [|now left | now right].
        exfalso.
        pose proof (replace_all_valid c) as Hv. rewrite E in Hv.
        apply mem_false in Hv. contradiction.
      - right. now left. }
    pose proof (normalize_ws_spaces
                  (fold_left (fun f c => replace_char c ch_underscore f)
                             invalid_chars x)) as H2.
    fold s in H2.
    rewrite Forall_forall in *. intros c Hin.
    destruct (H1 c Hin) as [Hsp | [-> | ->]]; [|now left | right; now left].
    destruct (H2 c Hin) as [Hns | ->]; [congruence | right; now right]. }
  apply strip_Forall in Hs.
  unfold replace_char. rewrite !map_map, Forall_map.
  eapply Forall_impl; [|exact Hs].
  intros c [-> | [-> | ->]]; reflexivity.
Qed.

End SanitizeMore.

Import SanitizeMore.

(** X2: a name that is not empty, has no invalid character and no
    whitespace, does not end with an underscore or a dash and is at most
    100 characters long comes back from the sanitizer unchanged. *)
Theorem sanitize_filename_clean_unchanged (r : str) :
  r <> [] ->
  Forall (fun c => ~ In c invalid_chars) r ->
  Forall (fun c => isspace c = false) r ->
  (forall r' c, r = r' ++ [c] -> c <> ch_underscore /\ c <> ch_dash) ->
  (List.length r <= 100)%nat ->
  sanitize_filename r = r.
Proof.
  intros Hne Hvalid Hns Hlast Hlen. apply sanitize_filename_fixpoint; auto.
  eapply Forall_impl; [|exact Hvalid]. intros c Hc. now apply mem_false.
Qed.

(** Witness of X2. *)
Lemma sanitize_filename_clean_unchanged_witness :
  sanitize_filename (lit "Leave-Policy_v2") = lit "Leave-Policy_v2".
Proof.
  apply sanitize_filename_clean_unchanged.
  - discriminate.
  - apply Forall_forall. intros c Hc Hin. vm_compute in Hc, Hin.
    repeat (destruct Hc as [<- | Hc];
            [repeat (destruct Hin as [Hin | Hin]; [discriminate|]);
             contradiction|]).
    contradiction.
  - repeat constructor.
  - intros r' c E.
    change (lit "Leave-Policy_v2") with (lit "Leave-Policy_v" ++ [50]) in E.
    apply app_inj_tail in E as [_ <-]. split; discriminate.
  - vm_compute. lia.
Defined.

(** X3: where the sanitized name is not empty, sanitizing it again any
    number of times gives the same name. *)
Theorem sanitize_filename_stable (x : str) (n : nat) :
  sanitize_filename x <> [] ->
  Nat.iter n sanitize_filename (sanitize_filename x) = sanitize_filename x.
Proof.
  intros Hne. induction n as [|n IH]; [reflexivity|].
  simpl. rewrite IH. apply sanitize_filename_fixpoint.
  - assumption.
  - apply sanitize_filename_valid.
  - apply sanitize_filename_nonspace.
  - intros r c. apply sanitize_filename_last.
  - apply sanitize_filename_length.
Qed.

(** Witness of X3. *)
Lemma sanitize_filename_stable_witness :
  Nat.iter 3 sanitize_filename (sanitize_filename (lit " Q&A: notes_ "))
  = lit "Q&A_-notes".
Proof.
  rewrite (sanitize_filename_stable (lit " Q&A: notes_ ") 3).
  - reflexivity.
  - discriminate.
Defined.

(** X4: the sanitizer invents no character: every character of the name
    it makes from a non-empty input is a character of the input, an
    underscore or a dash. *)
Theorem sanitize_filename_characters (x : str) :
  x <> [] ->
  Forall (fun c => In c x \/ c = ch_underscore \/ c = ch_dash)
         (sanitize_filename x).
Proof.
  intros Hne. rewrite sanitize_filename_unfold by assumption. cbv zeta.
  pose proof (cleaned_origin x) as H. unfold from_input in H.
  destruct (_ <? _)%nat; unfold rstrip_chars;
    repeat first [apply strip_Forall | apply rstrip_by_Forall
                 | apply lstrip_by_Forall | apply firstn_Forall];
    assumption.
Qed.

(** Witness of X4. *)
Lemma sanitize_filename_characters_witness :
  Forall (fun c => In c (lit "A/B C") \/ c = ch_underscore \/ c = ch_dash)
         (lit "A_B-C").
Proof.
  change (lit "A_B-C") with (sanitize_filename (lit "A/B C")).
  apply sanitize_filename_characters. discriminate.
Defined.

(** X5: a non-empty name made only of invalid characters, whitespace,
    underscores and dashes is sanitized to the empty string, not to the
    placeholder of line 85. *)
Theorem sanitize_filename_vanishes (x : str) :
  x <> [] ->
  Forall (fun c => In c invalid_chars \/ isspace c = true
                   \/ c = ch_underscore \/ c = ch_dash) x ->
  sanitize_filename x = [].
Proof.
  intros Hne Hx. rewrite sanitize_filename_unfold by assumption. cbv zeta.
  assert (E : rstrip_chars (lit "_-") (cleaned x) = [])
    by apply (rstrip_by_all _ _ (cleaned_vanishing x Hx)).
  rewrite E. reflexivity.
Qed.

(** Witness of X5. *)
Lemma sanitize_filename_vanishes_witness :
  sanitize_filename (lit "?? _-") = [].
Proof.
  apply sanitize_filename_vanishes; [discriminate|].
  repeat constructor; vm_compute; tauto.
Defined.

(** ** What a run does and never does

    [behaves P c]: whatever trace [c] starts from, it only appends
    events, each of them satisfies [P], and if it ends the process it
    does so with status 1. *)
Definition behaves {A : Type} (P : event -> Prop) (c : M A) : Prop :=
  forall tr,
    exists events,
      snd (c tr) = tr ++ events
      /\ Forall P events
      /\ (forall code, fst (c tr) = Exit code -> code = 1%Z).

(** Code without effects that does not call [sys.exit]. *)
Definition no_exit {A : Type} (o : outcome A) : Prop :=
  forall code, o <> Exit code.

Module EffectFacts.

Lemma no_exit_obind {A B : Type} (o : outcome A) (k : A -> outcome B) :
  no_exit o -> (forall a, o = Ret a -> no_exit (k a)) -> no_exit (obind o k).
Proof.
  intros Ho Hk code. destruct o as [a|e|c]; simpl.
  - now apply Hk.
  - discriminate.
  - now destruct (Ho c).
Qed.

Lemma no_exit_py_get (v : value) (k : str) (d : value) : no_exit (py_get v k d).
Proof. intros code. destruct v; discriminate. Qed.

Lemma no_exit_py_getitem (v : value) (k : str) : no_exit (py_getitem v k).
Proof.
  intros code. destruct v as [| | | | |d]; simpl; try discriminate.
  destruct (assoc d k); discriminate.
Qed.

Lemma no_exit_py_strip (v : value) : no_exit (py_strip v).
Proof. intros code. destruct v; discriminate. Qed.

Lemma no_exit_py_iter (v : value) : no_exit (py_iter v).
Proof. intros code. destruct v; discriminate. Qed.

Lemma no_exit_sanitize_filename_dyn (v : value) :
  no_exit (sanitize_filename_dyn v).
Proof.
  intros code. unfold sanitize_filename_dyn.
  destruct (negb (truthy v)); [discriminate|]. destruct v; discriminate.
Qed.

Lemma no_exit_convert (h : str -> str) (v : value) :
  no_exit (convert_html_to_markdown h v).
Proof. intros code. destruct v; discriminate. Qed.

Lemma no_exit_metadata_title (metadata : list (str * str)) :
  no_exit (metadata_title metadata).
Proof.
  intros code. unfold metadata_title.
  destruct (assoc metadata (lit "title")); discriminate.
Qed.

Lemma no_exit_drop_title_lines (metadata : list (str * str))
  (lines : list str) :
  no_exit (drop_title_lines metadata lines).
Proof.
  induction lines as [|l rest IH]; [discriminate|]. simpl.
  destruct (str_eqb (strip l) []); [exact IH|].
  apply no_exit_obind; [apply no_exit_metadata_title|].
  intros title _. destruct (_ || _); [exact IH | discriminate].
Qed.

Lemma no_exit_transformed_body (metadata : list (str * str)) (md : str) :
  no_exit (transformed_body metadata md).
Proof.
  unfold transformed_body.
  apply no_exit_obind; [apply no_exit_drop_title_lines|]. discriminate.
Qed.

Lemma no_exit_article_title (article_data : value) :
  no_exit (article_title article_data).
Proof.
  unfold article_title.
  apply no_exit_obind; [apply no_exit_py_get|]. intros sd _.
  apply no_exit_obind.
  { destruct (truthy sd); [discriminate | apply no_exit_py_get]. }
  intros t _. apply no_exit_obind; [apply no_exit_py_strip|]. discriminate.
Qed.

Lemma no_exit_article_metadata (article_data : value) (title : str)
  (a : author) :
  no_exit (article_metadata article_data title a).
Proof. intros code. destruct article_data; discriminate. Qed.

Lemma no_exit_build_categories (repr_str : str -> str) (items : list value)
  (acc : list (str * value)) :
  no_exit (build_categories repr_str items acc).
Proof.
  revert acc. induction items as [|cat rest IH]; intros acc; [discriminate|].
  simpl. apply no_exit_obind; [apply no_exit_py_getitem|].
  intros x _. apply IH.
Qed.

Lemma no_exit_filter_knowledge_bases (cfg : config) (items : list value) :
  no_exit (filter_knowledge_bases cfg items).
Proof.
  induction items as [|kb rest IH]; [discriminate|]. simpl.
  apply no_exit_obind; [apply no_exit_py_get|]. intros t _.
  apply no_exit_obind; [apply no_exit_py_strip|]. intros s _.
  apply no_exit_obind; [exact IH|]. discriminate.
Qed.

(** Closes a [behaves] goal once the appended events are named. *)
Ltac appended evs :=
  exists evs; simpl; rewrite ?app_nil_r, <- ?app_assoc;
  split; [reflexivity|];
  split; [repeat constructor; auto|];
  let code := fresh "code" in
  let H := fresh "H" in
  intros code H; try discriminate; try (now injection H as <-); auto.

Section Combinators.

Variable P : event -> Prop.
Hypothesis P_print : forall m, P (EPrint m).

Lemma behaves_ret {A : Type} (a : A) : behaves P (ret a).
Proof. intros tr. appended (@nil event). Qed.

Lemma behaves_lift {A : Type} (o : outcome A) :
  no_exit o -> behaves P (lift o).
Proof.
  intros Ho tr. appended (@nil event).
  match goal with H : o = Exit ?c |- _ => now destruct (Ho c) end.
Qed.

Lemma behaves_emit (ev : event) : P ev -> behaves P (emit ev).
Proof. intros Hev tr. appended [ev]. Qed.

Lemma behaves_print (m : message) : behaves P (print m).
Proof. apply behaves_emit, P_print. Qed.

Lemma behaves_sys_exit {A : Type} : behaves P (@sys_exit A 1).
Proof. intros tr. appended (@nil event). Qed.

Lemma behaves_bind {A B : Type} (c : M A) (k : A -> M B) :
  behaves P c ->
  (forall a tr, fst (c tr) = Ret a -> behaves P (k a)) ->
  behaves P (bind c k).
Proof.
  intros Hc Hk tr. unfold bind.
  destruct (Hc tr) as (ev1 & E1 & F1 & X1).
  destruct (c tr) as [[a|e|code] tr1] eqn:Ec; simpl in E1, X1; subst tr1.
  - assert (Ha : fst (c tr) = Ret a) by now rewrite Ec.
    destruct (Hk a tr Ha (tr ++ ev1)) as (ev2 & E2 & F2 & X2).
    exists (ev1 ++ ev2). rewrite E2, app_assoc.
    split; [reflexivity|]. split; [now apply Forall_app | exact X2].
  - exists ev1. split; [reflexivity|]. split; [assumption|].
    simpl. discriminate.
  - exists ev1. split; [reflexivity|]. split; [assumption|].
    simpl. intros c0 H. injection H as <-. now apply X1.
Qed.

Lemma behaves_bind_lift {A B : Type} (o : outcome A) (k : A -> M B) :
  no_exit o ->
  (forall a, o = Ret a -> behaves P (k a)) ->
  behaves P (bind (lift o) k).
Proof.
  intros Ho Hk. apply behaves_bind; [now apply behaves_lift|].
  intros a tr H. now apply Hk.
Qed.

Lemma behaves_seq {A B : Type} (c : M A) (k : M B) :
  behaves P c -> behaves P k -> behaves P (bind c (fun _ => k)).
Proof. intros Hc Hk. apply behaves_bind; auto. Qed.

Lemma behaves_try_except {A : Type} (body : M A) (handles : exn -> bool)
  (handler : exn -> M A) :
  behaves P body ->
  (forall e, behaves P (handler e)) ->
  behaves P (try_except body handles handler).
Proof.
  intros Hb Hh tr. unfold try_except.
  destruct (Hb tr) as (ev1 & E1 & F1 & X1).
  destruct (body tr) as [[a|e|code] tr1] eqn:Eb; simpl in E1, X1; subst tr1.
  - exists ev1. split; [reflexivity|]. split; [assumption | exact X1].
  - destruct (handles e).
    + destruct (Hh e (tr ++ ev1)) as (ev2 & E2 & F2 & X2).
      exists (ev1 ++ ev2). rewrite E2, app_assoc.
      split; [reflexivity|]. split; [now apply Forall_app | exact X2].
    + exists ev1. split; [reflexivity|]. split; [assumption | exact X1].
  - exists ev1. split; [reflexivity|]. split; [assumption | exact X1].
Qed.

Lemma behaves_for_each {A : Type} (body : A -> M unit) (items : list A) :
  (forall x, In x items -> behaves P (body x)) ->
  behaves P (for_each body items).
Proof.
  induction items as [|x rest IH]; intros H; simpl.
  - apply behaves_ret.
  - apply behaves_seq; [apply H; now left|].
    apply IH. intros y Hy. apply H. now right.
Qed.

Variable w : world.

Lemma behaves_make_request (r : request) :
  P (ERequest r) -> behaves P (make_request w r).
Proof.
  intros Hr tr. unfold make_request.
  destruct (http w tr r) as [| |status| | |e|v].
  - appended [ERequest r; EPrint MsgCouldNotConnect].
  - appended [ERequest r; EPrint (MsgTimedOut r)].
  - unfold bind, print, emit, sys_exit, lift, ret.
    destruct (status =? 401)%Z; [|destruct (status =? 403)%Z].
    + appended [ERequest r; EPrint (MsgHTTPFailed status);
                EPrint MsgAuthenticationFailed].
    + appended [ERequest r; EPrint (MsgHTTPFailed status);
                EPrint MsgAccessForbidden].
    + appended [ERequest r; EPrint (MsgHTTPFailed status)].
  - appended [ERequest r; EPrint MsgUnexpectedRequestError].
  - appended [ERequest r; EPrint (MsgInvalidJSON r)].
  - appended [ERequest r].
  - appended [ERequest r].
Qed.

Lemma behaves_create_folder (path : str) :
  P (EMakedirs path) -> behaves P (create_folder w path).
Proof.
  intros Hp tr. unfold create_folder.
  destruct (path_exists w tr path); [appended (@nil event)|].
  destruct (makedirs_fails w tr path);
    [appended (@nil event) | appended [EMakedirs path]].
Qed.

Lemma behaves_write_file (path content : str) :
  P (EOpen path) -> P (EWrite path content) ->
  behaves P (write_file w path content).
Proof.
  intros Ho Hp tr. unfold write_file.
  destruct (open_fails w tr path); [appended (@nil event)|].
  cbv zeta. destruct (write_error w (tr ++ [EOpen path]) path content);
    [appended [EOpen path] | appended [EOpen path; EWrite path content]].
Qed.

End Combinators.

End EffectFacts.

Import EffectFacts.

(** A name the sanitizer has produced. *)
Definition is_sanitized (n : str) : Prop := exists x, n = sanitize_filename x.

(** The folder of a knowledge base in the output folder, or the folder
    of a category in that. *)
Definition article_folder (out p : str) : Prop :=
  exists kb,
    is_sanitized kb
    /\ (p = os_path_join out kb
        \/ exists category,
             is_sanitized category
             /\ p = os_path_join (os_path_join out kb) category).

(** The folders of a run. *)
Definition export_folder (out p : str) : Prop :=
  p = out \/ article_folder out p.

(** The files of a run: a sanitized name with the extension [.md], in
    the folder of a knowledge base or of a category. *)
Definition export_file (out p : str) : Prop :=
  exists folder name,
    article_folder out folder /\ is_sanitized name
    /\ p = os_path_join folder (name ++ lit ".md").

(** What is written: the document composed for an article record, that
    is the frontmatter of the kept fields of its metadata, the heading
    of its title, which is not empty, and its transformed body. *)
Definition composed_document (repr_str : str -> str) (content : str) : Prop :=
  exists article_data title a metadata markdown_content body,
    article_title article_data = Ret title
    /\ title <> []
    /\ name a <> []
    /\ article_metadata article_data title a = Ret metadata
    /\ transformed_body (clean_metadata repr_str metadata) markdown_content
       = Ret body
    /\ content
       = document (frontmatter_lines (clean_metadata repr_str metadata))
           title body.

(** The only events of a run. *)
Definition export_event (repr_str : str -> str) (cfg : config) (ev : event)
  : Prop :=
  match ev with
  | EPrint _ => True
  | ERequest (GetUser user_sys_id) => truthy user_sys_id = true
  | ERequest (GetArticle article_id) => truthy article_id = true
  | ERequest _ => True
  | EMakedirs path => export_folder (output_folder cfg) path
  | EOpen path => export_file (output_folder cfg) path
  | EWrite path content =>
      export_file (output_folder cfg) path
      /\ composed_document repr_str content
  end.

Module AuthorMore.

(** The name of a resolved author is not empty and is stripped. *)
Lemma get_user_details_name (repr_str : str -> str) (w : world)
  (user_sys_id : value) (tr : trace) (a : author) :
  fst (get_user_details repr_str w user_sys_id tr) = Ret a ->
  name a <> [] /\ strip (name a) = name a.
Proof.
  unfold get_user_details. destruct (truthy user_sys_id); simpl.
  - unfold try_except, bind, make_request, lift.
    destruct (http w tr (GetUser user_sys_id)) as [| |status| | |e|v]; simpl;
      try discriminate.
    + destruct (status =? 401)%Z; [discriminate|].
      destruct (status =? 403)%Z; discriminate.
    + intros H. injection H as <-. split; [discriminate | reflexivity].
    + assert (Hunknown : forall i, Ret (unknown i) = Ret a ->
                name a <> [] /\ strip (name a) = name a).
      { intros i H. injection H as <-. split; [discriminate | reflexivity]. }
      destruct v as [| | | | |d]; simpl; try apply Hunknown.
      destruct (dict_get d (lit "result") (VDict [])) as [| | | | |u]; simpl;
        try apply Hunknown.
      match goal with
      | |- context [match strip ?x with [] => _ | _ :: _ => _ end] =>
          destruct (strip x) as [|c full] eqn:E
      end.
      * apply Hunknown.
      * intros H. injection H as <-. simpl. split; [discriminate|].
        rewrite <- E. apply strip_idem.
  - intros H. injection H as <-. split; [discriminate | reflexivity].
Qed.

End AuthorMore.

Import AuthorMore.

Create HintDb no_exit.

Module RunFacts.

#[local] Hint Resolve no_exit_py_get no_exit_py_getitem no_exit_py_strip
  no_exit_py_iter no_exit_sanitize_filename_dyn no_exit_convert
  no_exit_metadata_title no_exit_transformed_body no_exit_article_title
  no_exit_article_metadata no_exit_build_categories
  no_exit_filter_knowledge_bases : no_exit.

Lemma sanitize_filename_dyn_sanitized (v : value) (n : str) :
  sanitize_filename_dyn v = Ret n -> is_sanitized n.
Proof.
  unfold sanitize_filename_dyn. destruct (negb (truthy v)).
  - intros H. injection H as <-. now exists [].
  - destruct v; try discriminate. intros H. injection H as <-. now eexists.
Qed.

Section Run.

Variable repr_str : str -> str.
Variable html2text_handle : str -> str.
Variable cfg : config.
Variable w : world.

Lemma P_print : forall m, export_event repr_str cfg (EPrint m).
Proof. intros m. exact I. Qed.

Lemma get_user_details_behaves (user_sys_id : value) :
  behaves (export_event repr_str cfg) (get_user_details repr_str w user_sys_id).
Proof.
  unfold get_user_details. destruct (truthy user_sys_id) eqn:E; simpl.
  - apply behaves_try_except; [|intros e; apply behaves_ret].
    apply behaves_bind; [apply behaves_make_request; [apply P_print | exact E]|].
    intros response tr _.
    apply behaves_bind_lift; [auto with no_exit|]. intros user _.
    apply behaves_bind_lift; [auto with no_exit|]. intros first_name _.
    apply behaves_bind_lift; [auto with no_exit|]. intros last_name _.
    apply behaves_ret.
  - apply behaves_ret.
Qed.

Lemma format_article_markdown_behaves (article_data : value)
  (markdown_content file_path : str) :
  behaves (export_event repr_str cfg)
    (format_article_markdown repr_str w article_data markdown_content
       file_path).
Proof.
  unfold format_article_markdown.
  apply behaves_bind_lift; [auto with no_exit|]. intros title _.
  apply behaves_bind_lift; [auto with no_exit|]. intros author_ref _.
  apply behaves_bind_lift; [auto with no_exit|]. intros author_sys_id _.
  apply behaves_bind; [apply get_user_details_behaves|]. intros a tr _.
  apply behaves_bind_lift; [auto with no_exit|]. intros metadata _.
  apply behaves_bind_lift; [auto with no_exit|]. intros body _.
  apply behaves_bind_lift; [auto with no_exit|]. intros heading _.
  apply behaves_ret.
Qed.

Lemma format_article_markdown_document (article_data : value)
  (markdown_content file_path doc : str) (tr : trace) :
  fst (format_article_markdown repr_str w article_data markdown_content
         file_path tr) = Ret doc ->
  composed_document repr_str doc.
Proof.
  destruct (format_article_markdown repr_str w article_data markdown_content
              file_path tr) as [o tr'] eqn:E.
  simpl. intros ->.
  apply format_article_markdown_inv in E
    as (title & author_ref & author_sys_id & a & metadata & body
        & Ht & _ & _ & Hu & Hm & Hb & _ & Hne & ->).
  assert (Hname : name a <> []).
  { apply (get_user_details_name repr_str w author_sys_id tr). now rewrite Hu. }
  exists article_data, title, a, metadata, markdown_content, body.
  repeat split; assumption.
Qed.

Lemma print_article_content_behaves (original_title sanitized_title : str)
  (article_data : value) (file_path : str) :
  export_file (output_folder cfg) file_path ->
  behaves (export_event repr_str cfg)
    (print_article_content repr_str html2text_handle w original_title
       sanitized_title article_data file_path).
Proof.
  intros Hpath. unfold print_article_content.
  apply behaves_bind_lift; [auto with no_exit|]. intros text _.
  apply behaves_bind_lift; [auto with no_exit|]. intros markdown_content _.
  apply behaves_bind; [apply format_article_markdown_behaves|].
  intros full_markdown tr Hdoc.
  apply behaves_write_file; [exact Hpath|]. split; [assumption|].
  now apply format_article_markdown_document in Hdoc.
Qed.

Lemma process_article_behaves (categories : list (str * value))
  (kb kb_title : str) (article : value) :
  is_sanitized kb ->
  behaves (export_event repr_str cfg)
    (process_article repr_str html2text_handle w categories
       (os_path_join (output_folder cfg) kb) kb_title article).
Proof.
  intros Hkb. unfold process_article.
  apply behaves_try_except; [|intros e; apply behaves_print, P_print].
  apply behaves_bind_lift; [auto with no_exit|]. intros article_id _.
  destruct (truthy article_id) eqn:Eid; cbn [negb]; [|apply behaves_ret].
  apply behaves_bind; [apply behaves_make_request; [apply P_print | exact Eid]|].
  intros article_response tr _.
  apply behaves_bind_lift; [auto with no_exit|]. intros article_data _.
  apply behaves_bind_lift; [auto with no_exit|]. intros short_description _.
  apply behaves_bind.
  { destruct (truthy short_description);
      [apply behaves_ret | apply behaves_lift; auto with no_exit]. }
  intros title tr1 _.
  apply behaves_bind_lift; [auto with no_exit|]. intros original_title _.
  apply behaves_bind_lift; [auto with no_exit|]. intros kb_category _.
  apply behaves_bind.
  - destruct (if truthy (VStr (py_str repr_str kb_category))
              then assoc categories (py_str repr_str kb_category)
              else None) as [category|]; [|apply behaves_ret].
    apply behaves_bind_lift; [auto with no_exit|]. intros label _.
    apply behaves_bind_lift; [auto with no_exit|]. intros category_title Hc.
    apply sanitize_filename_dyn_sanitized in Hc.
    apply behaves_seq; [|apply behaves_ret].
    apply behaves_create_folder. right. exists kb. split; [assumption|].
    right. now exists category_title.
  - intros destination tr2 Hdest.
    assert (Hfolder : article_folder (output_folder cfg) (fst destination)).
    { destruct (if truthy (VStr (py_str repr_str kb_category))
                then assoc categories (py_str repr_str kb_category)
                else None) as [category|].
      - unfold bind, lift, ret in Hdest.
        destruct (py_get category (lit "label") (VStr (lit "Unnamed_Category")))
          as [label| |]; try discriminate.
        destruct (sanitize_filename_dyn label) as [ct| |] eqn:Hc;
          try discriminate.
        apply sanitize_filename_dyn_sanitized in Hc.
        destruct (create_folder w _ tr2) as [[[]| |] tr3]; try discriminate.
        simpl in Hdest. injection Hdest as <-. simpl.
        exists kb. split; [assumption|]. right. now exists ct.
      - unfold ret in Hdest. simpl in Hdest. injection Hdest as <-.
        exists kb. split; [assumption | now left]. }
    apply behaves_seq; [apply behaves_print, P_print|].
    apply print_article_content_behaves.
    exists (fst destination), (sanitize_filename original_title).
    split; [assumption|]. split; [now eexists | reflexivity].
Qed.

Lemma process_knowledge_base_behaves (categories : list (str * value))
  (kb : value) :
  behaves (export_event repr_str cfg)
    (process_knowledge_base repr_str html2text_handle cfg w categories kb).
Proof.
  unfold process_knowledge_base.
  apply behaves_try_except; [|intros e; apply behaves_print, P_print].
  apply behaves_bind_lift; [auto with no_exit|]. intros title _.
  apply behaves_bind_lift; [auto with no_exit|]. intros kb_title Hkb.
  apply sanitize_filename_dyn_sanitized in Hkb.
  apply behaves_seq.
  { apply behaves_create_folder. right. exists kb_title. auto. }
  apply behaves_seq; [apply behaves_print, P_print|].
  apply behaves_seq; [apply behaves_print, P_print|].
  apply behaves_bind_lift; [auto with no_exit|]. intros kb_sys_id _.
  apply behaves_bind; [apply behaves_make_request; [apply P_print | exact I]|].
  intros articles_response tr _.
  apply behaves_bind_lift; [auto with no_exit|]. intros articles _.
  destruct (negb (truthy articles)); [apply behaves_print, P_print|].
  apply behaves_bind_lift; [auto with no_exit|]. intros items _.
  apply behaves_for_each. intros article _.
  now apply process_article_behaves.
Qed.

Lemma export_knowledge_bases_behaves (knowledge_bases : value) :
  behaves (export_event repr_str cfg)
    (export_knowledge_bases repr_str html2text_handle cfg w knowledge_bases).
Proof.
  unfold export_knowledge_bases.
  apply behaves_bind; [apply behaves_make_request; [apply P_print | exact I]|].
  intros cat_response tr _.
  apply behaves_bind_lift; [auto with no_exit|]. intros cats _.
  apply behaves_bind_lift; [auto with no_exit|]. intros cat_items _.
  apply behaves_bind_lift; [auto with no_exit|]. intros categories _.
  apply behaves_bind_lift; [auto with no_exit|]. intros kbs _.
  apply behaves_seq.
  { apply behaves_for_each. intros kb _. apply process_knowledge_base_behaves. }
  apply behaves_seq; apply behaves_print, P_print.
Qed.

Lemma select_knowledge_bases_behaves (knowledge_bases : value) :
  behaves (export_event repr_str cfg) (select_knowledge_bases cfg knowledge_bases).
Proof.
  unfold select_knowledge_bases.
  destruct (selected_kbs cfg) as [|s sel]; [apply behaves_ret|].
  apply behaves_seq; [apply behaves_print, P_print|].
  apply behaves_bind_lift; [auto with no_exit|]. intros items _.
  apply behaves_bind_lift; [auto with no_exit|]. intros kept _.
  destruct (negb (truthy (VList kept))); [|apply behaves_ret].
  apply behaves_seq; [apply behaves_print, P_print | apply behaves_ret].
Qed.

Lemma main_behaves :
  behaves (export_event repr_str cfg) (main repr_str html2text_handle cfg w).
Proof.
  unfold main. apply behaves_try_except.
  - apply behaves_seq; [apply behaves_create_folder; now left|].
    apply behaves_seq; [apply behaves_print, P_print|].
    apply behaves_seq; [apply behaves_print, P_print|].
    apply behaves_bind; [apply behaves_make_request; [apply P_print | exact I]|].
    intros kb_response tr _.
    apply behaves_bind_lift; [auto with no_exit|]. intros knowledge_bases _.
    destruct (negb (truthy knowledge_bases)); [apply behaves_print, P_print|].
    apply behaves_bind; [apply select_knowledge_bases_behaves|].
    intros [selected|] tr1 _;
      [apply export_knowledge_bases_behaves | apply behaves_ret].
  - intros e. apply behaves_seq;
      [apply behaves_print, P_print | apply behaves_sys_exit].
Qed.

End Run.

End RunFacts.

Import RunFacts.


Module PathFacts.

Lemma sanitized_no_slash (n : str) : is_sanitized n -> ~ In 47 n.
Proof.
  intros [x ->] Hin.
  pose proof (sanitize_filename_valid x) as H. rewrite Forall_forall in H.
  specialize (H _ Hin). discriminate.
Qed.

(** Joining with a name that does not start with a slash appends it,
    after at most one slash. *)
Lemma os_path_join_relative (a b : str) :
  startswith b (lit "/") = false ->
  exists sep, (sep = [] \/ sep = lit "/") /\ os_path_join a b = a ++ sep ++ b.
Proof.
  intros H. unfold os_path_join. rewrite H.
  destruct (rev a) as [|c r] eqn:E.
  - exists []. split; [now left|].
    apply (f_equal (@rev char)) in E. rewrite rev_involutive in E.
    now subst.
  - destruct (c =? 47).
    + exists []. split; [now left | reflexivity].
    + exists (lit "/"). split; [now right | reflexivity].
Qed.

Lemma startswith_slash_false (b : str) :
  ~ In 47 b -> startswith b (lit "/") = false.
Proof.
  intros H. destruct b as [|c b]; [reflexivity|]. simpl.
  destruct (N.eqb_spec c 47) as [->|_]; [|reflexivity].
  exfalso. apply H. now left.
Qed.


Lemma article_folder_prefix (out p : str) :
  article_folder out p -> exists rest, p = out ++ rest.
Proof.
  intros (kb & Hkb & [-> | (cat & Hcat & ->)]).
  - destruct (os_path_join_relative out kb) as (sep & _ & ->).
    + now apply startswith_slash_false, sanitized_no_slash.
    + now eexists.
  - destruct (os_path_join_relative out kb) as (sep & _ & ->).
    + now apply startswith_slash_false, sanitized_no_slash.
    + destruct (os_path_join_relative (out ++ sep ++ kb) cat) as (sep2 & _ & ->).
      * now apply startswith_slash_false, sanitized_no_slash.
      * rewrite <- !app_assoc. now eexists.
Qed.


Lemma export_folder_prefix (out p : str) :
  export_folder out p -> exists rest, p = out ++ rest.
Proof.
  intros [-> | H]; [exists []; now rewrite app_nil_r|].
  now apply article_folder_prefix.
Qed.

End PathFacts.

Import PathFacts.


(** X8: every directory a run creates is the output folder, the folder
    of a knowledge base in it, or the folder of a category in that, each
    named by a sanitized name; as a text it starts with the output
    folder. *)
Theorem main_creates (repr_str html2text_handle : str -> str)
  (cfg : config) (w : world) (tr : trace) :
  exists events,
    snd (main repr_str html2text_handle cfg w tr) = tr ++ events
    /\ forall path,
         In (EMakedirs path) events ->
         export_folder (output_folder cfg) path
         /\ exists rest, path = output_folder cfg ++ rest.
Proof.
  destruct (main_behaves repr_str html2text_handle cfg w tr)
    as (events & E & Hall & _).
  exists events. split; [assumption|]. intros path Hin.
  rewrite Forall_forall in Hall. pose proof (Hall _ Hin) as Hfolder.
  split; [exact Hfolder | now apply export_folder_prefix].
Qed.

(** X9: a run never requests a user or an article with a missing or
    empty identifier. *)
Theorem main_requests (repr_str html2text_handle : str -> str)
  (cfg : config) (w : world) (tr : trace) :
  exists events,
    snd (main repr_str html2text_handle cfg w tr) = tr ++ events
    /\ (forall user_sys_id,
          In (ERequest (GetUser user_sys_id)) events ->
          truthy user_sys_id = true)
    /\ (forall article_id,
          In (ERequest (GetArticle article_id)) events ->
          truthy article_id = true).
Proof.
  destruct (main_behaves repr_str html2text_handle cfg w tr)
    as (events & E & Hall & _).
  exists events. split; [assumption|]. rewrite Forall_forall in Hall.
  split; intros id Hin; exact (Hall _ Hin).
Qed.


(** Witness of X8: the folder of the category of the example run. *)
Lemma main_creates_witness :
  export_folder (lit "/export/articles") (lit "/export/articles/HR/Policies").
Proof.
  destruct (main_creates (fun s => s) converted articles_folder
              (instance (leave_policy (reference "u1"))
                 (Json (user_record "Ada" "Lovelace"))) [])
    as (events & E & H).
  simpl app in E. subst events.
  apply (H (lit "/export/articles/HR/Policies")).
  vm_compute. tauto.
Defined.

(** Witness of X9: the user lookup of the example run. *)
Lemma main_requests_witness :
  truthy (VStr (lit "u1")) = true /\ truthy (VStr (lit "a1")) = true.
Proof.
  destruct (main_requests (fun s => s) converted articles_folder
              (instance (leave_policy (reference "u1"))
                 (Json (user_record "Ada" "Lovelace"))) [])
    as (events & E & Huser & Harticle).
  simpl app in E. subst events.
  split; [apply Huser | apply Harticle]; vm_compute; tauto.
Defined.

(** ** Requests and author resolution *)

(** X11: [get_user_details] never raises.  When it returns, the name is
    not empty and the identifier is the one given, or the empty string
    when none was given; it ends the process, with status 1, only for a
    given identifier whose lookup fails. *)
Theorem get_user_details_outcome (repr_str : str -> str) (w : world)
  (user_sys_id : value) (tr : trace) :
  match fst (get_user_details repr_str w user_sys_id tr) with
  | Ret a =>
      name a <> []
      /\ sys_id a = (if truthy user_sys_id then user_sys_id else VStr [])
  | Raise _ => False
  | Exit code =>
      code = 1%Z /\ truthy user_sys_id = true
      /\ forall v, http w tr (GetUser user_sys_id) <> Json v
  end.
Proof.
  destruct (truthy user_sys_id) eqn:E.
  - destruct (http w tr (GetUser user_sys_id)) as [| |status| | |e|v] eqn:Eh.
    7:{ destruct (get_user_details_answered repr_str w user_sys_id v tr E Eh)
          as (n & -> & Hn).
        simpl. now split. }
    6:{ rewrite (get_user_details_uncaught repr_str w user_sys_id tr e E Eh).
        simpl. split; [discriminate | reflexivity]. }
    all: rewrite (get_user_details_failed repr_str w user_sys_id tr E);
      [repeat split; discriminate
      | intros v; rewrite Eh; discriminate
      | intros e; rewrite Eh; discriminate].
  - rewrite (get_user_details_missing_id repr_str w user_sys_id tr E).
    simpl. split; [discriminate | reflexivity].
Qed.

(** ** More on the content transformer *)

Module CollapseFacts.

(** On lines without doubled blank lines, the loop of lines 204-210
    keeps everything, unless it starts after a blank line with a blank
    line. *)
Lemma collapse_blank_id (prev_blank : bool) (lines : list str) :
  no_double_blank lines = true ->
  match lines with
  | [] => true
  | l :: _ => negb (prev_blank && is_blank l)
  end = true ->
  collapse_blank prev_blank lines = lines.
Proof.
  revert prev_blank. induction lines as [|l rest IH]; intros pb Hnd Hhead;
    [reflexivity|].
  simpl. rewrite andb_comm in Hhead. rewrite Hhead.
  f_equal. apply IH.
  - now apply no_double_blank_tail in Hnd.
  - destruct rest as [|b rest]; [reflexivity|].
    simpl in Hnd. apply andb_true_iff in Hnd. tauto.
Qed.

End CollapseFacts.

Import CollapseFacts.

(** X12: collapsing blank lines twice is the same as collapsing them
    once. *)
Theorem collapse_blank_idempotent (lines : list str) :
  collapse_blank false (collapse_blank false lines)
  = collapse_blank false lines.
Proof.
  apply collapse_blank_id.
  - apply collapse_blank_no_double.
  - destruct (collapse_blank false lines); reflexivity.
Qed.

(** X13: the body the transformer produces has no leading and no
    trailing whitespace, and nothing is left of a text whose lines are
    all blank or title lines. *)
Theorem transformed_body_stripped (metadata : list (str * str))
  (markdown_content body : str) :
  transformed_body metadata markdown_content = Ret body ->
  strip body = body
  /\ (forall c rest, body = c :: rest -> isspace c = false)
  /\ (forall rest c, body = rest ++ [c] -> isspace c = false)
  /\ (drop_title_lines metadata (split_on ch_nl markdown_content) = Ret [] ->
      body = []).
Proof.
  unfold transformed_body.
  destruct (drop_title_lines metadata (split_on ch_nl markdown_content))
    as [content_lines| |]; simpl; try discriminate.
  intros H. injection H as <-.
  split; [apply strip_idem|]. split; [|split].
  - intros c rest. apply strip_head.
  - intros rest c. apply strip_last.
  - intros H. injection H as ->. reflexivity.
Qed.

(** Witness of X13: a body between blank lines and spaces. *)
Lemma transformed_body_stripped_witness :
  transformed_body [(lit "title", lit "T")]
    ([10; 32] ++ lit "T" ++ [10; 32; 32] ++ lit "a b" ++ [32; 10; 10])
  = Ret (lit "a b")
  /\ strip (lit "a b") = lit "a b".
Proof.
  split; [reflexivity|].
  apply (transformed_body_stripped [(lit "title", lit "T")]
           ([10; 32] ++ lit "T" ++ [10; 32; 32] ++ lit "a b" ++ [32; 10; 10])
           (lit "a b") eq_refl).
Defined.

(** ** The hierarchy resolver *)

(** A knowledge-base record whose title, if any, is a string. *)
Definition kb_title_of (kb : value) : option str :=
  match kb with
  | VDict d =>
      match dict_get d (lit "title") (VStr []) with
      | VStr s => Some (strip s)
      | _ => None
      end
  | _ => None
  end.

Definition kb_selected (cfg : config) (kb : value) : bool :=
  match kb_title_of kb with
  | Some title => existsb (str_eqb title) (selected_kbs cfg)
  | None => false
  end.

(** X14: when every record of the list is a dictionary whose title is a
    string or absent, the filter of line 259 keeps, in order, exactly
    the records whose stripped title is one of the selected titles. *)
Theorem filter_knowledge_bases_selected (cfg : config) (items : list value) :
  Forall (fun kb => kb_title_of kb <> None) items ->
  filter_knowledge_bases cfg items
  = Ret (List.filter (kb_selected cfg) items).
Proof.
  induction 1 as [|kb rest Hkb Hrest IH]; [reflexivity|].
  simpl. unfold kb_selected at 1. unfold kb_title_of in Hkb |- *.
  destruct kb as [| | | | |d]; try congruence. simpl.
  destruct (dict_get d (lit "title") (VStr [])) as [| | |s| |];
    try congruence.
  simpl. rewrite IH. reflexivity.
Qed.

(** Witness of X14: the example of the specification. *)
Lemma filter_knowledge_bases_selected_witness :
  let hr := VDict [(lit "title", VStr (lit "HR"))] in
  let it := VDict [(lit "title", VStr (lit " IT "))] in
  filter_knowledge_bases
    {| output_folder := lit "articles"; selected_kbs := [lit "HR"] |}
    [hr; it]
  = Ret [hr].
Proof.
  cbv zeta.
  rewrite filter_knowledge_bases_selected; [reflexivity|].
  repeat constructor; discriminate.
Defined.

(** X15: a record of the list that is not a dictionary, or whose title
    is not a string, makes the filter raise [AttributeError]; the
    records before it do not matter. *)
Theorem filter_knowledge_bases_raises (cfg : config)
  (before after : list value) (kb : value) :
  Forall (fun kb => kb_title_of kb <> None) before ->
  kb_title_of kb = None ->
  filter_knowledge_bases cfg (before ++ kb :: after) = Raise AttributeError.
Proof.
  intros Hbefore Hkb.
  induction Hbefore as [|x rest Hx Hrest IH]; simpl.
  - unfold kb_title_of in Hkb.
    destruct kb as [| | | | |d]; try reflexivity. simpl.
    destruct (dict_get d (lit "title") (VStr [])); try reflexivity.
    discriminate.
  - unfold kb_title_of in Hx.
    destruct x as [| | | | |d]; try congruence. simpl.
    destruct (dict_get d (lit "title") (VStr [])) as [| | |s| |];
      try congruence.
    simpl. rewrite IH. reflexivity.
Qed.

(** Witness of X15: a record whose title is null. *)
Lemma filter_knowledge_bases_raises_witness :
  filter_knowledge_bases
    {| output_folder := lit "articles"; selected_kbs := [lit "HR"] |}
    [VDict [(lit "title", VStr (lit "HR"))]; VDict [(lit "title", VNone)]]
  = Raise AttributeError.
Proof.
  apply (filter_knowledge_bases_raises _
           [VDict [(lit "title", VStr (lit "HR"))]] []
           (VDict [(lit "title", VNone)])).
  - repeat constructor. discriminate.
  - reflexivity.
Defined.

(** The key line 266 files a category record under. *)
Definition category_key (repr_str : str -> str) (cat : value) : option str :=
  match py_getitem cat (lit "sys_id") with
  | Ret cat_sys_id => Some (py_str repr_str cat_sys_id)
  | _ => None
  end.

Definition has_key (repr_str : str -> str) (k : str) (cat : value) : bool :=
  match category_key repr_str cat with
  | Some k' => str_eqb k' k
  | None => false
  end.

Module CategoryFacts.

Lemma assoc_set_same {A : Type} (d : list (str * A)) (k : str) (v : A) :
  assoc (assoc_set d k v) k = Some v.
Proof.
  induction d as [|[k' v'] d IH]; simpl.
  - now rewrite str_eqb_refl.
  - destruct (str_eqb k' k) eqn:E; simpl; rewrite E; [reflexivity | exact IH].
Qed.

Lemma assoc_set_other {A : Type} (d : list (str * A)) (k k' : str) (v : A) :
  k <> k' -> assoc (assoc_set d k v) k' = assoc d k'.
Proof.
  intros Hne. induction d as [|[k0 v0] d IH]; simpl.
  - destruct (str_eqb k k') eqn:E; [|reflexivity].
    apply str_eqb_eq in E. contradiction.
  - destruct (str_eqb k0 k) eqn:E; simpl.
    + apply str_eqb_eq in E. subst k0.
      destruct (str_eqb k k') eqn:E'; [|reflexivity].
      apply str_eqb_eq in E'. contradiction.
    + destruct (str_eqb k0 k'); [reflexivity | exact IH].
Qed.

Lemma find_snoc {A : Type} (p : A -> bool) (l : list A) (x : A) :
  find p (l ++ [x])
  = match find p l with
    | Some y => Some y
    | None => if p x then Some x else None
    end.
Proof.
  induction l as [|a l IH]; simpl; [reflexivity|].
  destruct (p a); [reflexivity | exact IH].
Qed.

Lemma build_categories_lookup (repr_str : str -> str) (items : list value)
  (acc cats : list (str * value)) (k : str) :
  build_categories repr_str items acc = Ret cats ->
  assoc cats k
  = match find (has_key repr_str k) (rev items) with
    | Some cat => Some cat
    | None => assoc acc k
    end.
Proof.
  revert acc. induction items as [|cat rest IH]; intros acc; simpl.
  - intros H. now injection H as <-.
  - destruct (py_getitem cat (lit "sys_id")) as [id| |] eqn:E; simpl;
      try discriminate.
    intros H. rewrite (IH _ H), find_snoc.
    destruct (find (has_key repr_str k) (rev rest)); [reflexivity|].
    unfold has_key, category_key. rewrite E.
    destruct (str_eqb (py_str repr_str id) k) eqn:Ek.
    + apply str_eqb_eq in Ek. subst k. apply assoc_set_same.
    + apply assoc_set_other. now apply str_eqb_neq.
Qed.

End CategoryFacts.

Import CategoryFacts.

(** X16: when the category lookup of line 266 is built, it maps an
    identifier to the last record of the list filed under it, and to
    nothing when there is none. *)
Theorem build_categories_last_wins (repr_str : str -> str)
  (items : list value) (cats : list (str * value)) :
  build_categories repr_str items [] = Ret cats ->
  forall k, assoc cats k = find (has_key repr_str k) (rev items).
Proof.
  intros H k. rewrite (build_categories_lookup _ _ _ _ k H).
  destruct (find _ _); reflexivity.
Qed.

(** Witness of X16: two records with the same identifier. *)
Lemma build_categories_last_wins_witness :
  let old := VDict [(lit "sys_id", VStr (lit "c1"));
                    (lit "label", VStr (lit "Old"))] in
  let new := VDict [(lit "sys_id", VStr (lit "c1"));
                    (lit "label", VStr (lit "New"))] in
  build_categories (fun s => s) [old; new] [] = Ret [(lit "c1", new)]
  /\ assoc [(lit "c1", new)] (lit "c1") = Some new
  /\ assoc [(lit "c1", new)] (lit "c2") = None.
Proof.
  cbv zeta. split; [reflexivity|].
  split;
    rewrite (build_categories_last_wins (fun s => s)
               [VDict [(lit "sys_id", VStr (lit "c1"));
                       (lit "label", VStr (lit "Old"))];
                VDict [(lit "sys_id", VStr (lit "c1"));
                       (lit "label", VStr (lit "New"))]]
               [(lit "c1",
                 VDict [(lit "sys_id", VStr (lit "c1"));
                        (lit "label", VStr (lit "New"))])]
               eq_refl);
    reflexivity.
Defined.

(** ** The isolation boundaries of the export driver *)

(** X17: the handler around one article stops every [KeyError] and
    nothing else: [process_article] never raises [KeyError], and an
    element of the article list that is not a dictionary makes it raise
    [AttributeError] without any effect. *)
Theorem process_article_boundary (repr_str html2text_handle : str -> str)
  (w : world) (categories : list (str * value)) (kb_folder kb_title : str)
  (article : value) (tr : trace) :
  (forall key,
     fst (process_article repr_str html2text_handle w categories kb_folder
            kb_title article tr) <> Raise (KeyError key))
  /\ (is_dict article = false ->
      process_article repr_str html2text_handle w categories kb_folder
        kb_title article tr = (Raise AttributeError, tr)).
Proof.
  split.
  - intros key. unfold process_article, try_except.
    match goal with |- context [let (_, _) := ?body tr in _] =>
      destruct (body tr) as [[[]|e|code] tr'] end; simpl; try discriminate.
    destruct e; simpl; discriminate.
  - intros H. destruct article; try discriminate; reflexivity.
Qed.

(** Witness of X17: a string in place of an article record. *)
Lemma process_article_boundary_witness :
  process_article (fun s => s) (fun s => s) empty_instance []
    (lit "/export/articles/HR") (lit "HR") (VStr (lit "a1")) []
  = (Raise AttributeError, []).
Proof.
  apply (process_article_boundary (fun s => s) (fun s => s) empty_instance []
           (lit "/export/articles/HR") (lit "HR") (VStr (lit "a1")) []).
  reflexivity.
Defined.



(** X19: with a selection configured and no knowledge base matching it,
    the run prints the filter line and the warning and returns, so that
    the exit status is 0; the categories are not requested. *)
Theorem main_no_matching_knowledge_bases
  (repr_str html2text_handle : str -> str) (cfg : config) (w : world)
  (tr tr1 : trace) (kb_response knowledge_bases : value)
  (items : list value) :
  create_folder w (output_folder cfg) tr = (Ret tt, tr1) ->
  http w (tr1 ++ [EPrint MsgStarting; EPrint MsgFetching]) GetKnowledgeBases
  = Json kb_response ->
  py_get kb_response (lit "result") (VList []) = Ret knowledge_bases ->
  truthy knowledge_bases = true ->
  selected_kbs cfg <> [] ->
  py_iter knowledge_bases = Ret items ->
  filter_knowledge_bases cfg items = Ret [] ->
  main repr_str html2text_handle cfg w tr
  = (Ret tt,
     tr1 ++ [EPrint MsgStarting; EPrint MsgFetching;
             ERequest GetKnowledgeBases;
             EPrint (MsgFiltering (selected_kbs cfg));
             EPrint MsgNoMatchingKnowledgeBases])
  /\ exit_status (fst (main repr_str html2text_handle cfg w tr)) = 0%Z.
Proof.
  intros Hcf Hkb Hres Htruthy Hsel Hiter Hfilter.
  assert (Hmain : main repr_str html2text_handle cfg w tr
                  = (Ret tt,
                     tr1 ++ [EPrint MsgStarting; EPrint MsgFetching;
                             ERequest GetKnowledgeBases;
                             EPrint (MsgFiltering (selected_kbs cfg));
                             EPrint MsgNoMatchingKnowledgeBases])).
  { unfold main, try_except, bind at 1. rewrite Hcf.
    unfold bind at 1. unfold print at 1, emit.
    unfold bind at 1. unfold print at 1, emit.
    unfold bind at 1. unfold make_request at 1.
    rewrite <- !app_assoc. simpl app. rewrite Hkb.
    unfold bind at 1, lift at 1. rewrite Hres, Htruthy.
    change (negb true) with false. cbv iota beta.
    unfold bind at 1, select_knowledge_bases.
    destruct (selected_kbs cfg) as [|s sel] eqn:Es; [congruence|].
    unfold bind at 1, print at 1, emit.
    unfold bind at 1, lift at 1. rewrite Hiter.
    unfold bind at 1, lift at 1. rewrite Hfilter.
    simpl. unfold bind, print, emit, ret. simpl.
    now rewrite <- !app_assoc. }
  split; [exact Hmain | now rewrite Hmain].
Qed.

(** Witness of X19: the selection IT on an instance whose only
    knowledge base is HR. *)
Lemma main_no_matching_knowledge_bases_witness :
  let cfg := {| output_folder := lit "/export/articles";
                selected_kbs := [lit "IT"] |} in
  main (fun s => s) (fun s => s) cfg instance_with_bad_category []
  = (Ret tt,
     [EMakedirs (lit "/export/articles")]
     ++ [EPrint MsgStarting; EPrint MsgFetching; ERequest GetKnowledgeBases;
         EPrint (MsgFiltering [lit "IT"]); EPrint MsgNoMatchingKnowledgeBases]).
Proof.
  cbv zeta.
  apply (main_no_matching_knowledge_bases (fun s => s) (fun s => s)
           {| output_folder := lit "/export/articles";
              selected_kbs := [lit "IT"] |}
           instance_with_bad_category []
           [EMakedirs (lit "/export/articles")]
           (VDict [(lit "result",
                    VList [VDict [(lit "sys_id", VStr (lit "k1"));
                                  (lit "title", VStr (lit "HR"))]])])
           (VList [VDict [(lit "sys_id", VStr (lit "k1"));
                          (lit "title", VStr (lit "HR"))]])
           [VDict [(lit "sys_id", VStr (lit "k1"));
                   (lit "title", VStr (lit "HR"))]]);
    try reflexivity.
  discriminate.
Defined.

(** ** More on the metadata composer *)

Module TitleMore.

Lemma split_ws_aux_word (w rest cur : str) :
  Forall (fun c => isspace c = false) w ->
  split_ws_aux cur (w ++ rest) = split_ws_aux (rev w ++ cur) rest.
Proof.
  intros H. revert cur. induction H as [|c w Hc Hw IH]; intros cur; simpl.
  - reflexivity.
  - rewrite Hc, IH. now rewrite <- app_assoc.
Qed.

Lemma split_ws_aux_space (cur rest : str) :
  cur <> [] ->
  split_ws_aux cur (ch_space :: rest) = rev cur :: split_ws_aux [] rest.
Proof. intros H. destruct cur; [congruence | reflexivity]. Qed.

(** Splitting words joined by single spaces gives the words back. *)
Lemma split_ws_join (ws : list str) :
  Forall (fun w => w <> [] /\ Forall (fun c => isspace c = false) w) ws ->
  split_ws (join [ch_space] ws) = ws.
Proof.
  unfold split_ws. induction 1 as [|w ws [Hne Hw] Hws IH]; [reflexivity|].
  destruct ws as [|w2 ws].
  - simpl. rewrite split_ws_aux_single by assumption. simpl.
    destruct w; [congruence | reflexivity].
  - change (join [ch_space] (w :: w2 :: ws))
      with (w ++ ch_space :: join [ch_space] (w2 :: ws)).
    rewrite split_ws_aux_word by assumption. rewrite app_nil_r.
    rewrite split_ws_aux_space.
    + now rewrite rev_involutive, IH.
    + intros E. apply (f_equal (@rev char)) in E.
      rewrite rev_involutive in E. simpl in E. congruence.
Qed.

Lemma normalize_ws_idem (s : str) :
  normalize_ws (normalize_ws s) = normalize_ws s.
Proof.
  unfold normalize_ws at 1 2. rewrite split_ws_join; [reflexivity|].
  apply split_ws_aux_words. constructor.
Qed.

Lemma article_title_inv (article_data : value) (title : str) :
  article_title article_data = Ret title ->
  exists s, title = normalize_ws s.
Proof.
  unfold article_title.
  destruct (py_get article_data (lit "short_description") VNone)
    as [sd| |]; simpl; try discriminate.
  destruct (if truthy sd then Ret sd
            else py_get article_data (lit "title") (VStr []))
    as [x| |]; simpl; try discriminate.
  destruct (py_strip x) as [t| |]; simpl; try discriminate.
  intros H. injection H as <-. now eexists.
Qed.

End TitleMore.

Import TitleMore.

(** X20: the title of lines 164-165 is in normal form: it has no
    leading or trailing whitespace, is on one line, its only whitespace
    characters are plain spaces, and normalising it again changes
    nothing (so no two spaces follow each other). *)
Theorem article_title_normal_form (article_data : value) (title : str) :
  article_title article_data = Ret title ->
  strip title = title
  /\ ~ In ch_nl title
  /\ Forall (fun c => isspace c = true -> c = ch_space) title
  /\ normalize_ws title = title.
Proof.
  intros H. destruct (article_title_inv _ _ H) as [s ->].
  split; [apply normalize_ws_stripped|]. split; [|split].
  - pose proof (normalize_ws_no_nl s) as Hnl. unfold no_nl in Hnl.
    rewrite Forall_forall in Hnl. intros Hin. now apply (Hnl _ Hin).
  - eapply Forall_impl; [|apply normalize_ws_spaces].
    intros c [Hc | ->] Hsp; [congruence | reflexivity].
  - apply normalize_ws_idem.
Qed.

(** Witness of X20: a short description over two lines. *)
Lemma article_title_normal_form_witness :
  article_title
    (VDict [(lit "short_description",
             VStr ([32] ++ lit "Leave" ++ [9; 10] ++ lit "Policy" ++ [32]))])
  = Ret (lit "Leave Policy")
  /\ normalize_ws (lit "Leave Policy") = lit "Leave Policy".
Proof.
  split; [reflexivity|].
  apply (article_title_normal_form
           (VDict [(lit "short_description",
                    VStr ([32] ++ lit "Leave" ++ [9; 10] ++ lit "Policy"
                          ++ [32]))])
           (lit "Leave Policy") eq_refl).
Defined.

(** X22: with no title in the metadata, the loop of lines 196-201
    returns the empty list when every line is blank and raises
    [KeyError('title')] as soon as one is not. *)
Theorem drop_title_lines_untitled (metadata : list (str * str))
  (lines : list str) :
  assoc metadata (lit "title") = None ->
  drop_title_lines metadata lines
  = if forallb is_blank lines then Ret []
    else Raise (KeyError (lit "title")).
Proof.
  intros Ht. induction lines as [|l rest IH]; [reflexivity|].
  simpl. rewrite is_blank_eqb. destruct (is_blank l); simpl; [exact IH|].
  unfold metadata_title. now rewrite Ht.
Qed.

(** Witness of X22. *)
Lemma drop_title_lines_untitled_witness :
  drop_title_lines [(lit "author", lit "Unknown")] [[]; [32]; lit "Text"]
  = Raise (KeyError (lit "title"))
  /\ drop_title_lines [(lit "author", lit "Unknown")] [[]; [32]] = Ret [].
Proof.
  split;
    rewrite (drop_title_lines_untitled [(lit "author", lit "Unknown")])
      by reflexivity;
    reflexivity.
Defined.


(** X21: the frontmatter of every composed document starts with the
    title field and the author field, in this order, both non-empty;
    the title is also the heading of the document. *)
Theorem frontmatter_title_and_author (repr_str : str -> str) (w : world)
  (article_data : value) (markdown_content file_path doc : str)
  (tr tr' : trace) :
  format_article_markdown repr_str w article_data markdown_content file_path tr
  = (Ret doc, tr') ->
  exists title author_name fields body,
    title <> [] /\ author_name <> []
    /\ article_title article_data = Ret title
    /\ doc = document
               (frontmatter_lines
                  ((lit "title", title) :: (lit "author", author_name)
                   :: fields))
               title body.
Proof.
  intros H.
  apply format_article_markdown_inv in H
    as (title & author_ref & author_sys_id & a & metadata & body
        & Ht & _ & _ & Hu & Hm & _ & _ & Hne & ->).
  assert (Hname : name a <> [] /\ strip (name a) = name a).
  { apply (get_user_details_name repr_str w author_sys_id tr). now rewrite Hu. }
  destruct Hname as [Hn Hns].
  destruct (article_title_normalised _ _ Ht) as [Hts _].
  apply article_metadata_inv in Hm as (d & _ & ->).
  exists title, (name a).
  eexists. exists body.
  split; [assumption|]. split; [assumption|]. split; [assumption|].
  f_equal. f_equal. unfold clean_metadata.
  destruct title as [|c t]; [congruence|].
  destruct (name a) as [|c' n] eqn:En; [congruence|].
  cbn [List.filter List.map truthy snd fst py_str].
  rewrite Hts, Hns. reflexivity.
Qed.

(** Witness of X21: the document of the example run. *)
Lemma frontmatter_title_and_author_witness :
  exists title author_name fields body,
    title <> [] /\ author_name <> []
    /\ article_title plain_article = Ret title
    /\ document
         (frontmatter_lines
            [(lit "title", lit "Leave Policy");
             (lit "author", lit "Unknown");
             (lit "sys_id", lit "a1")])
         (lit "Leave Policy") (lit "Text")
       = document
           (frontmatter_lines
              ((lit "title", title) :: (lit "author", author_name) :: fields))
           title body.
Proof.
  apply (frontmatter_title_and_author (fun s => s) no_users plain_article
           (lit "Text") (lit "Leave-Policy.md") _ [] []).
  reflexivity.
Defined.
